(** * liquid-glass-react: the displacement filter graph and the pointer
      transform engine of [src/index.tsx]

    The development embeds, function by function, the parts of [index.tsx]
    that compute something: [getMap], the SVG filter built by [GlassFilter],
    the props that [LiquidGlass] hands to [GlassContainer] and on to
    [GlassFilter], and the three pointer callbacks
    [calculateDirectionalScale], [calculateFadeInFactor] and
    [calculateElasticTranslation] together with the transform composed from
    them.

    Conventions of the embedding.
    - A JavaScript [number] is a real number: arithmetic is exact and there
      is neither [NaN] nor an infinity.  [Math.max], [Math.min], [Math.abs]
      and [Math.sqrt] are [Rmax], [Rmin], [Rabs] and [sqrt].
    - [!n] on a number is the test [n = 0]; [s || d] on a string takes [d]
      exactly when [s] is absent or empty.
    - An optional prop is an [option]; a destructuring default [p = d] is
      [default d p].
    - A [throw] is the [Throw] branch of [completion].
    - Template literals that only print numbers into CSS or SVG attribute
      syntax are kept as structured values (a list of table values, a pair
      of scale functions) rather than as text. *)

From Stdlib Require Import Reals Lra String List Bool.
Import ListNotations.

Local Open Scope string_scope.
Local Open Scope R_scope.

(** ** JavaScript values *)

Record Error := mkError { message : string }.

Inductive completion (A : Type) : Type :=
| Return (a : A)
| Throw (e : Error).
Arguments Return {A} a.
Arguments Throw {A} e.

Definition bind {A B : Type} (c : completion A) (k : A -> completion B)
  : completion B :=
  match c with
  | Return a => k a
  | Throw e => Throw e
  end.

(** A destructuring default, and [a ?? d] / [a || d] on an object that is
    either absent or present. *)
Definition default {A : Type} (d : A) (o : option A) : A :=
  match o with
  | Some v => v
  | None => d
  end.

(** [Boolean(v)] on an optional object or function. *)
Definition is_some {A : Type} (o : option A) : bool :=
  match o with
  | Some _ => true
  | None => false
  end.

(** Truthiness of a number: every number except zero. *)
Definition truthy_number (n : R) : bool :=
  if Req_dec_T n 0 then false else true.

(** Truthiness of a string: every string except the empty one. *)
Definition truthy_string (s : string) : bool :=
  negb (s =? "")%string.

(** [s || d] where [s] is an optional string. *)
Definition string_or (s : option string) (d : string) : string :=
  match s with
  | Some v => if truthy_string v then v else d
  | None => d
  end.

(** ** Geometry records *)

Record Point := mkPoint { pt_x : R; pt_y : R }.

(** The fields of a [DOMRect] that the code reads. *)
Record DOMRect := mkDOMRect {
  rect_left : R;
  rect_top : R;
  rect_width : R;
  rect_height : R
}.

Record Size := mkSize { size_width : R; size_height : R }.

(** ** The SVG filter *)

Inductive ChannelSelector := chR | chG | chB | chA.

Inductive TransferType := discrete | table.

Inductive CompositeOperator := op_in | op_over.

(** Filter primitives, with the attributes [GlassFilter] sets on them.
    Inputs and results are the names written in the JSX. *)
Inductive FilterPrimitive :=
| feImage (result href preserveAspectRatio : string)
| feColorMatrix (input : string) (values : list R) (result : string)
| feComponentTransfer (input : string) (funcA : TransferType)
    (tableValues : list R) (result : string)
| feOffset (input : string) (dx dy : R) (result : string)
| feDisplacementMap (input in2 : string) (scale : R)
    (xChannelSelector yChannelSelector : ChannelSelector) (result : string)
| feBlend (input in2 mode result : string)
| feGaussianBlur (input : string) (stdDeviation : R) (result : string)
| feComposite (input in2 : string) (operator : CompositeOperator)
    (result : option string).

(** A gradient stop; [stop_offset] is the percentage. *)
Record Stop := mkStop {
  stop_offset : R;
  stopColor : string;
  stopOpacity : R
}.

Record RadialGradient := mkRadialGradient {
  gradient_id : string;
  gradient_stops : list Stop
}.

Record Filter := mkFilter {
  filter_id : string;
  filter_x : R;
  filter_y : R;
  filter_width : R;
  filter_height : R;
  filterUnits : string;
  primitiveUnits : string;
  colorInterpolationFilters : string;
  filter_primitives : list FilterPrimitive
}.

Record Svg := mkSvg {
  svg_width : R;
  svg_height : R;
  svg_gradient : RadialGradient;
  svg_filter : Filter
}.

Record GlassFilterProps := mkGlassFilterProps {
  gf_id : string;
  gf_displacementScale : R;
  gf_aberrationIntensity : R;
  gf_width : R;
  gf_height : R;
  gf_mode : string;
  gf_shaderMapUrl : option string
}.

Section DisplacementMaps.

(** The three displacement assets exported by [./utils], which the rest of
    the file is parametrised by. *)
Variables displacementMap polarDisplacementMap prominentDisplacementMap
  : string.

Definition getMap (mode : string) (shaderMapUrl : option string)
  : completion string :=
  if (mode =? "standard")%string then Return displacementMap
  else if (mode =? "polar")%string then Return polarDisplacementMap
  else if (mode =? "prominent")%string then Return prominentDisplacementMap
  else if (mode =? "shader")%string
       then Return (string_or shaderMapUrl displacementMap)
  else Throw (mkError ("Invalid mode: " ++ mode)).

Definition GlassFilter (props : GlassFilterProps) : completion Svg :=
  let id := gf_id props in
  let displacementScale := gf_displacementScale props in
  let aberrationIntensity := gf_aberrationIntensity props in
  let width := gf_width props in
  let height := gf_height props in
  let mode := gf_mode props in
  bind (getMap mode (gf_shaderMapUrl props)) (fun href =>
  Return
    {| svg_width := width;
       svg_height := height;
       svg_gradient :=
         {| gradient_id := id ++ "-edge-mask";
            gradient_stops :=
              [ mkStop 0 "black" 0;
                mkStop (Rmax 30 (80 - aberrationIntensity * 2)) "black" 0;
                mkStop 100 "white" 1 ] |};
       svg_filter :=
         {| filter_id := id;
            filter_x := - width * 0.1;
            filter_y := - height * 0.1;
            filter_width := width * 1.2;
            filter_height := height * 1.2;
            filterUnits := "userSpaceOnUse";
            primitiveUnits := "userSpaceOnUse";
            colorInterpolationFilters := "sRGB";
            filter_primitives :=
              [ feImage "DISPLACEMENT_MAP" href "xMidYMid slice";
                feColorMatrix "DISPLACEMENT_MAP"
                  [ 0.3; 0.3; 0.3; 0; 0;
                    0.3; 0.3; 0.3; 0; 0;
                    0.3; 0.3; 0.3; 0; 0;
                    0; 0; 0; 1; 0 ]
                  "EDGE_INTENSITY";
                feComponentTransfer "EDGE_INTENSITY" discrete
                  [ 0; aberrationIntensity * 0.05; 1 ] "EDGE_MASK";
                feOffset "SourceGraphic" 0 0 "CENTER_ORIGINAL";
                feDisplacementMap "SourceGraphic" "DISPLACEMENT_MAP"
                  (displacementScale
                   * (if (mode =? "shader")%string then 1 else -1))
                  chR chB "RED_DISPLACED";
                feColorMatrix "RED_DISPLACED"
                  [ 1; 0; 0; 0; 0;
                    0; 0; 0; 0; 0;
                    0; 0; 0; 0; 0;
                    0; 0; 0; 1; 0 ]
                  "RED_CHANNEL";
                feDisplacementMap "SourceGraphic" "DISPLACEMENT_MAP"
                  (displacementScale
                   * ((if (mode =? "shader")%string then 1 else -1)
                      - aberrationIntensity * 0.05))
                  chR chB "GREEN_DISPLACED";
                feColorMatrix "GREEN_DISPLACED"
                  [ 0; 0; 0; 0; 0;
                    0; 1; 0; 0; 0;
                    0; 0; 0; 0; 0;
                    0; 0; 0; 1; 0 ]
                  "GREEN_CHANNEL";
                feDisplacementMap "SourceGraphic" "DISPLACEMENT_MAP"
                  (displacementScale
                   * ((if (mode =? "shader")%string then 1 else -1)
                      - aberrationIntensity * 0.1))
                  chR chB "BLUE_DISPLACED";
                feColorMatrix "BLUE_DISPLACED"
                  [ 0; 0; 0; 0; 0;
                    0; 0; 0; 0; 0;
                    0; 0; 1; 0; 0;
                    0; 0; 0; 1; 0 ]
                  "BLUE_CHANNEL";
                feBlend "GREEN_CHANNEL" "BLUE_CHANNEL" "screen" "GB_COMBINED";
                feBlend "RED_CHANNEL" "GB_COMBINED" "screen" "RGB_COMBINED";
                feGaussianBlur "RGB_COMBINED"
                  (Rmax 0.1 (0.5 - aberrationIntensity * 0.1))
                  "ABERRATED_BLURRED";
                feComposite "ABERRATED_BLURRED" "EDGE_MASK" op_in
                  (Some "EDGE_ABERRATION");
                feComponentTransfer "EDGE_MASK" table [ 1; 0 ]
                  "INVERTED_MASK";
                feComposite "CENTER_ORIGINAL" "INVERTED_MASK" op_in
                  (Some "CENTER_CLEAN");
                feComposite "EDGE_ABERRATION" "CENTER_CLEAN" op_over None
              ] |} |}).

(** ** The pointer callbacks of [LiquidGlass] *)

(** What [calculateDirectionalScale] returns: the text [scale(s)] or the
    text [scaleX(sx) scaleY(sy)]. *)
Inductive ScaleFunctions :=
| scale_uniform (s : R)
| scaleX_scaleY (sx sy : R).

(** The horizontal and vertical factor a list of CSS scale functions
    stands for. *)
Definition scale_factors (t : ScaleFunctions) : R * R :=
  match t with
  | scale_uniform s => (s, s)
  | scaleX_scaleY sx sy => (sx, sy)
  end.

Section PointerCallbacks.

(** What the three callbacks close over: the pointer position, the rectangle
    of [glassRef.current] ([None] while the ref is null), the measured glass
    size and the elasticity. *)
Variable globalMousePos : Point.
Variable glassRef : option DOMRect.
Variable glassSize : Size.
Variable elasticity : R.

Definition calculateDirectionalScale : ScaleFunctions :=
  if negb (truthy_number (pt_x globalMousePos))
     || negb (truthy_number (pt_y globalMousePos))
     || negb (is_some glassRef)
  then scale_uniform 1
  else
  match glassRef with
  | None => scale_uniform 1
  | Some rect =>
    let pillCenterX := rect_left rect + rect_width rect / 2 in
    let pillCenterY := rect_top rect + rect_height rect / 2 in
    let pillWidth := size_width glassSize in
    let pillHeight := size_height glassSize in
    let deltaX := pt_x globalMousePos - pillCenterX in
    let deltaY := pt_y globalMousePos - pillCenterY in
    let edgeDistanceX := Rmax 0 (Rabs deltaX - pillWidth / 2) in
    let edgeDistanceY := Rmax 0 (Rabs deltaY - pillHeight / 2) in
    let edgeDistance :=
      sqrt (edgeDistanceX * edgeDistanceX + edgeDistanceY * edgeDistanceY) in
    let activationZone := 200 in
    if Rgt_dec edgeDistance activationZone then scale_uniform 1
    else
    let fadeInFactor := 1 - edgeDistance / activationZone in
    let centerDistance := sqrt (deltaX * deltaX + deltaY * deltaY) in
    if Req_dec_T centerDistance 0 then scale_uniform 1
    else
    let normalizedX := deltaX / centerDistance in
    let normalizedY := deltaY / centerDistance in
    let stretchIntensity :=
      Rmin (centerDistance / 300) 1 * elasticity * fadeInFactor in
    let scaleX :=
      1 + Rabs normalizedX * stretchIntensity * 0.3
        - Rabs normalizedY * stretchIntensity * 0.15 in
    let scaleY :=
      1 + Rabs normalizedY * stretchIntensity * 0.3
        - Rabs normalizedX * stretchIntensity * 0.15 in
    scaleX_scaleY (Rmax 0.8 scaleX) (Rmax 0.8 scaleY)
  end.

Definition calculateFadeInFactor : R :=
  if negb (truthy_number (pt_x globalMousePos))
     || negb (truthy_number (pt_y globalMousePos))
     || negb (is_some glassRef)
  then 0
  else
  match glassRef with
  | None => 0
  | Some rect =>
    let pillCenterX := rect_left rect + rect_width rect / 2 in
    let pillCenterY := rect_top rect + rect_height rect / 2 in
    let pillWidth := size_width glassSize in
    let pillHeight := size_height glassSize in
    let edgeDistanceX :=
      Rmax 0 (Rabs (pt_x globalMousePos - pillCenterX) - pillWidth / 2) in
    let edgeDistanceY :=
      Rmax 0 (Rabs (pt_y globalMousePos - pillCenterY) - pillHeight / 2) in
    let edgeDistance :=
      sqrt (edgeDistanceX * edgeDistanceX + edgeDistanceY * edgeDistanceY) in
    let activationZone := 200 in
    if Rgt_dec edgeDistance activationZone then 0
    else 1 - edgeDistance / activationZone
  end.

Definition calculateElasticTranslation : Point :=
  match glassRef with
  | None => {| pt_x := 0; pt_y := 0 |}
  | Some rect =>
    let fadeInFactor := calculateFadeInFactor in
    let pillCenterX := rect_left rect + rect_width rect / 2 in
    let pillCenterY := rect_top rect + rect_height rect / 2 in
    {| pt_x :=
         (pt_x globalMousePos - pillCenterX) * elasticity * 0.1 * fadeInFactor;
       pt_y :=
         (pt_y globalMousePos - pillCenterY) * elasticity * 0.1 * fadeInFactor
    |}
  end.

End PointerCallbacks.

(** The distance from the pointer to the nearest edge of the glass box as
    both callbacks compute it: the box is centred on the rectangle of the
    glass element and has the measured glass size as its extent; along an
    axis on which the pointer is within the half-extent the distance is
    zero. *)
Definition edgeDistance (globalMousePos : Point) (rect : DOMRect)
  (glassSize : Size) : R :=
  let pillCenterX := rect_left rect + rect_width rect / 2 in
  let pillCenterY := rect_top rect + rect_height rect / 2 in
  let edgeDistanceX :=
    Rmax 0 (Rabs (pt_x globalMousePos - pillCenterX)
            - size_width glassSize / 2) in
  let edgeDistanceY :=
    Rmax 0 (Rabs (pt_y globalMousePos - pillCenterY)
            - size_height glassSize / 2) in
  sqrt (edgeDistanceX * edgeDistanceX + edgeDistanceY * edgeDistanceY).

(** The same distance said geometrically: how far the pointer is from the
    point of the box nearest to it, the box being the set of points within
    half the glass width and half the glass height of the centre. *)
Definition clamp (lo hi v : R) : R := Rmax lo (Rmin hi v).

Definition distance_to_box (globalMousePos : Point) (rect : DOMRect)
  (glassSize : Size) : R :=
  let centerX := rect_left rect + rect_width rect / 2 in
  let centerY := rect_top rect + rect_height rect / 2 in
  let nearestX :=
    clamp (centerX - size_width glassSize / 2)
          (centerX + size_width glassSize / 2) (pt_x globalMousePos) in
  let nearestY :=
    clamp (centerY - size_height glassSize / 2)
          (centerY + size_height glassSize / 2) (pt_y globalMousePos) in
  sqrt ((pt_x globalMousePos - nearestX) * (pt_x globalMousePos - nearestX)
        + (pt_y globalMousePos - nearestY) * (pt_y globalMousePos - nearestY)).

(** ** [GlassContainer] and [LiquidGlass] *)

(** A caller's event handler; the components only test whether one was
    passed and hand it on. *)
Inductive EventHandler := handler (tag : nat).

(** The props of [GlassContainer] that reach the filter, the backdrop or the
    class list. *)
Record GlassContainerProps := mkGlassContainerProps {
  gc_transform : option (ScaleFunctions * Point);
  gc_displacementScale : option R;
  gc_blurAmount : option R;
  gc_saturation : option R;
  gc_aberrationIntensity : option R;
  gc_mouseOffset : option Point;
  gc_active : option bool;
  gc_overLight : option bool;
  gc_cornerRadius : option R;
  gc_glassSize : option Size;
  gc_onClick : option EventHandler;
  gc_mode : option string
}.

(** The hooks of [GlassContainer]: the id from [useId] and the
    [shaderMapUrl] state, which starts as the empty string. *)
Record GlassContainerHooks := mkGlassContainerHooks {
  filterId : string;
  shaderMapUrl : string
}.

(** The props of the [<GlassFilter .../>] element in [GlassContainer]. *)
Definition GlassContainer_GlassFilter_props (props : GlassContainerProps)
  (hooks : GlassContainerHooks) : GlassFilterProps :=
  let displacementScale := default 25 (gc_displacementScale props) in
  let aberrationIntensity := default 2 (gc_aberrationIntensity props) in
  let glassSize :=
    default {| size_width := 270; size_height := 69 |} (gc_glassSize props) in
  let mode := default "standard" (gc_mode props) in
  {| gf_mode := mode;
     gf_id := filterId hooks;
     gf_displacementScale := displacementScale;
     gf_aberrationIntensity := aberrationIntensity;
     gf_width := size_width glassSize;
     gf_height := size_height glassSize;
     gf_shaderMapUrl := Some (shaderMapUrl hooks) |}.

(** The radius of the blur in [backdropStyle.backdropFilter]. *)
Definition GlassContainer_backdrop_blur (props : GlassContainerProps) : R :=
  let blurAmount := default 12 (gc_blurAmount props) in
  let overLight := default false (gc_overLight props) in
  (if overLight then 12 else 4) + blurAmount * 32.

Record LiquidGlassProps := mkLiquidGlassProps {
  lg_displacementScale : option R;
  lg_blurAmount : option R;
  lg_saturation : option R;
  lg_aberrationIntensity : option R;
  lg_elasticity : option R;
  lg_cornerRadius : option R;
  lg_globalMousePos : option Point;
  lg_mouseOffset : option Point;
  lg_overLight : option bool;
  lg_mode : option string;
  lg_onClick : option EventHandler;
  lg_glassSize : option Size
}.

(** The [useState] cells of [LiquidGlass] and the rectangle of
    [glassRef.current]. *)
Record LiquidGlassHooks := mkLiquidGlassHooks {
  isHovered : bool;
  isActive : bool;
  glassSize_state : Size;
  internalGlobalMousePos : Point;
  internalMouseOffset : Point;
  glassRef_current : option DOMRect
}.

(** The value of [dynamicTransform]: a scale part followed by
    [translate(x px, y px)]. *)
Definition dynamicTransform (props : LiquidGlassProps)
  (hooks : LiquidGlassHooks) : ScaleFunctions * Point :=
  let elasticity := default 0.15 (lg_elasticity props) in
  let onClick := lg_onClick props in
  let glassSize := glassSize_state hooks in
  let globalMousePos :=
    default (internalGlobalMousePos hooks) (lg_globalMousePos props) in
  let glassRef := glassRef_current hooks in
  let elastic :=
    calculateElasticTranslation globalMousePos glassRef glassSize elasticity in
  (if isActive hooks && is_some onClick
   then scale_uniform 0.96
   else calculateDirectionalScale globalMousePos glassRef glassSize elasticity,
   elastic).

(** The props of the [<GlassContainer .../>] element in [LiquidGlass]. *)
Definition LiquidGlass_GlassContainer_props (props : LiquidGlassProps)
  (hooks : LiquidGlassHooks) : GlassContainerProps :=
  let displacementScale := default 70 (lg_displacementScale props) in
  let blurAmount := default 0.0625 (lg_blurAmount props) in
  let saturation := default 140 (lg_saturation props) in
  let aberrationIntensity := default 2 (lg_aberrationIntensity props) in
  let cornerRadius := default 999 (lg_cornerRadius props) in
  let overLight := default false (lg_overLight props) in
  let mode := default "standard" (lg_mode props) in
  let mouseOffset :=
    default (internalMouseOffset hooks) (lg_mouseOffset props) in
  {| gc_transform := Some (dynamicTransform props hooks);
     gc_cornerRadius := Some cornerRadius;
     gc_displacementScale :=
       Some (if overLight then displacementScale * 0.5 else displacementScale);
     gc_blurAmount := Some blurAmount;
     gc_saturation := Some saturation;
     gc_aberrationIntensity := Some aberrationIntensity;
     gc_glassSize := Some (glassSize_state hooks);
     gc_mouseOffset := Some mouseOffset;
     gc_active := Some (isActive hooks);
     gc_overLight := Some overLight;
     gc_onClick := lg_onClick props;
     gc_mode := Some mode |}.

(** The props with which the filter of a [LiquidGlass] is built. *)
Definition LiquidGlass_GlassFilter_props (props : LiquidGlassProps)
  (hooks : LiquidGlassHooks) (container : GlassContainerHooks)
  : GlassFilterProps :=
  GlassContainer_GlassFilter_props
    (LiquidGlass_GlassContainer_props props hooks) container.

(** The props of a clickable [LiquidGlass] that leaves everything else to
    the defaults. *)
Definition clickable_props : LiquidGlassProps :=
  {| lg_displacementScale := None;
     lg_blurAmount := None;
     lg_saturation := None;
     lg_aberrationIntensity := None;
     lg_elasticity := None;
     lg_cornerRadius := None;
     lg_globalMousePos := None;
     lg_mouseOffset := None;
     lg_overLight := None;
     lg_mode := None;
     lg_onClick := Some (handler 0);
     lg_glassSize := None |}.

(** ** Reading a filter graph *)

(** The [feDisplacementMap] stages of a graph, in order, each with its
    result name, scale and the two channel selectors. *)
Fixpoint displacement_stages (l : list FilterPrimitive)
  : list (string * R * ChannelSelector * ChannelSelector) :=
  match l with
  | [] => []
  | feDisplacementMap _ _ s xc yc res :: tl =>
      (res, s, xc, yc) :: displacement_stages tl
  | _ :: tl => displacement_stages tl
  end.

(** The table of the [feFuncA] of the component transfer that writes
    [name]. *)
Fixpoint transfer_table (name : string) (l : list FilterPrimitive)
  : option (TransferType * list R) :=
  match l with
  | [] => None
  | feComponentTransfer _ ty tv res :: tl =>
      if (res =? name)%string then Some (ty, tv) else transfer_table name tl
  | _ :: tl => transfer_table name tl
  end.

(** The standard deviations of the Gaussian blur stages, in order. *)
Fixpoint blur_deviations (l : list FilterPrimitive) : list R :=
  match l with
  | [] => []
  | feGaussianBlur _ sd _ :: tl => sd :: blur_deviations tl
  | _ :: tl => blur_deviations tl
  end.

(** The modes whose map is a fixed asset. *)
Definition static_mode (mode : string) : Prop :=
  mode = "standard" \/ mode = "polar" \/ mode = "prominent".

Definition known_mode (mode : string) : Prop :=
  static_mode mode \/ mode = "shader".

(** ** Pointer tracking in [LiquidGlass] *)

(** The fields of a [MouseEvent] that [handleMouseMove] reads. *)
Record MouseEvent := mkMouseEvent { clientX : R; clientY : R }.

(** [mouseContainer?.current || glassRef.current]: the rectangle of the
    element the pointer is tracked on; [mouseContainer] is the rectangle of
    the caller's container when the caller passed one that is mounted. *)
Definition tracked_container (mouseContainer : option DOMRect)
  (hooks : LiquidGlassHooks) : option DOMRect :=
  match mouseContainer with
  | Some rect => Some rect
  | None => glassRef_current hooks
  end.

(** The two state updates of [handleMouseMove].  The offsets divide by the
    width and height of the container; the embedding agrees with the code
    where these are not zero. *)
Definition handleMouseMove (mouseContainer : option DOMRect)
  (e : MouseEvent) (hooks : LiquidGlassHooks) : LiquidGlassHooks :=
  match tracked_container mouseContainer hooks with
  | None => hooks
  | Some rect =>
    let centerX := rect_left rect + rect_width rect / 2 in
    let centerY := rect_top rect + rect_height rect / 2 in
    {| isHovered := isHovered hooks;
       isActive := isActive hooks;
       glassSize_state := glassSize_state hooks;
       internalMouseOffset :=
         {| pt_x := (clientX e - centerX) / rect_width rect * 100;
            pt_y := (clientY e - centerY) / rect_height rect * 100 |};
       internalGlobalMousePos :=
         {| pt_x := clientX e; pt_y := clientY e |};
       glassRef_current := glassRef_current hooks |}
  end.

(** Whether the effect that sets up mouse tracking registers
    [handleMouseMove] as a listener. *)
Definition mouse_tracking_registered (props : LiquidGlassProps)
  (mouseContainer : option DOMRect) (hooks : LiquidGlassHooks) : bool :=
  if is_some (lg_globalMousePos props) && is_some (lg_mouseOffset props)
  then false
  else is_some (tracked_container mouseContainer hooks).

(** A "mousemove" event on the tracked container: it reaches
    [handleMouseMove] when the listener is registered. *)
Definition on_mousemove (props : LiquidGlassProps)
  (mouseContainer : option DOMRect) (e : MouseEvent)
  (hooks : LiquidGlassHooks) : LiquidGlassHooks :=
  if mouse_tracking_registered props mouseContainer hooks
  then handleMouseMove mouseContainer e hooks
  else hooks.

(** The "mousedown" and "mouseup" handlers passed to [GlassContainer]. *)
Definition set_isActive (b : bool) (hooks : LiquidGlassHooks)
  : LiquidGlassHooks :=
  {| isHovered := isHovered hooks;
     isActive := b;
     glassSize_state := glassSize_state hooks;
     internalMouseOffset := internalMouseOffset hooks;
     internalGlobalMousePos := internalGlobalMousePos hooks;
     glassRef_current := glassRef_current hooks |}.

(** The hooks at the first render: the initial values of the [useState]
    cells, and a [glassRef] that is still null. *)
Definition LiquidGlass_initial_hooks (props : LiquidGlassProps)
  : LiquidGlassHooks :=
  {| isHovered := false;
     isActive := false;
     glassSize_state :=
       default {| size_width := 270; size_height := 69 |}
         (lg_glassSize props);
     internalGlobalMousePos := {| pt_x := 0; pt_y := 0 |};
     internalMouseOffset := {| pt_x := 0; pt_y := 0 |};
     glassRef_current := None |}.

(** ** Measuring the glass *)

(** The state [glassSize] after [measureGlassSize]; [glassEl] is the
    rectangle of the [.glass] element when there is one. *)
Definition measureGlassSize (externalGlassSize : option Size)
  (glassEl : option DOMRect) (prev : Size) : Size :=
  match externalGlassSize with
  | Some _ => prev
  | None =>
    match glassEl with
    | None => prev
    | Some rect =>
      let next :=
        {| size_width := rect_width rect; size_height := rect_height rect |} in
      if Req_dec_T (size_width prev) (size_width next)
      then if Req_dec_T (size_height prev) (size_height next)
           then prev else next
      else next
    end
  end.

(** The state [glassSize] after the effect that keeps it current;
    [window_defined] is [typeof window !== "undefined"]. *)
Definition glassSize_effect (externalGlassSize : option Size)
  (window_defined : bool) (glassEl : option DOMRect) (prev : Size) : Size :=
  match externalGlassSize with
  | Some size => size
  | None =>
    if window_defined
    then measureGlassSize externalGlassSize glassEl prev
    else prev
  end.

(** ** The overlay borders of [LiquidGlass] *)

(** A stop [rgba(255, 255, 255, alpha) position%] of a linear gradient. *)
Record ColorStop := mkColorStop { stop_alpha : R; stop_position : R }.

Record LinearGradient := mkLinearGradient {
  linear_angle : R;
  linear_stops : list ColorStop
}.

(** [externalMouseOffset || internalMouseOffset] *)
Definition LiquidGlass_mouseOffset (props : LiquidGlassProps)
  (hooks : LiquidGlassHooks) : Point :=
  default (internalMouseOffset hooks) (lg_mouseOffset props).

(** The background of the border span blended with "screen". *)
Definition screen_border_background (mouseOffset : Point) : LinearGradient :=
  {| linear_angle := 135 + pt_x mouseOffset * 1.2;
     linear_stops :=
       [ mkColorStop 0.0 0;
         mkColorStop (0.12 + Rabs (pt_x mouseOffset) * 0.008)
           (Rmax 10 (33 + pt_y mouseOffset * 0.3));
         mkColorStop (0.4 + Rabs (pt_x mouseOffset) * 0.012)
           (Rmin 90 (66 + pt_y mouseOffset * 0.4));
         mkColorStop 0.0 100 ] |}.

(** The background of the border span blended with "overlay". *)
Definition overlay_border_background (mouseOffset : Point) : LinearGradient :=
  {| linear_angle := 135 + pt_x mouseOffset * 1.2;
     linear_stops :=
       [ mkColorStop 0.0 0;
         mkColorStop (0.32 + Rabs (pt_x mouseOffset) * 0.008)
           (Rmax 10 (33 + pt_y mouseOffset * 0.3));
         mkColorStop (0.6 + Rabs (pt_x mouseOffset) * 0.012)
           (Rmin 90 (66 + pt_y mouseOffset * 0.4));
         mkColorStop 0.0 100 ] |}.

(** ** The shader map of [GlassContainer] *)

(** What [updateShader()] returns on a [ShaderDisplacementGenerator] made
    for a width and a height with the liquid glass fragment shader; the
    class is in [./shader-utils]. *)
Variable updateShader : R -> R -> string.

Definition generateShaderDisplacementMap (width height : R) : string :=
  let dataUrl := updateShader width height in
  dataUrl.

(** The hooks after the effect that generates the shader map. *)
Definition GlassContainer_shader_effect (props : GlassContainerProps)
  (hooks : GlassContainerHooks) : GlassContainerHooks :=
  let glassSize :=
    default {| size_width := 270; size_height := 69 |} (gc_glassSize props) in
  let mode := default "standard" (gc_mode props) in
  if (mode =? "shader")%string
  then
    let url :=
      generateShaderDisplacementMap (size_width glassSize)
        (size_height glassSize) in
    {| filterId := filterId hooks; shaderMapUrl := url |}
  else hooks.

(** The hooks of [GlassContainer] at its first render. *)
Definition GlassContainer_initial_hooks (id : string) : GlassContainerHooks :=
  {| filterId := id; shaderMapUrl := "" |}.

(** The [<GlassFilter .../>] element of a [GlassContainer], and of the
    [GlassContainer] of a [LiquidGlass]. *)
Definition GlassContainer_filter (props : GlassContainerProps)
  (hooks : GlassContainerHooks) : completion Svg :=
  GlassFilter (GlassContainer_GlassFilter_props props hooks).

Definition LiquidGlass_filter (props : LiquidGlassProps)
  (hooks : LiquidGlassHooks) (container : GlassContainerHooks)
  : completion Svg :=
  GlassContainer_filter (LiquidGlass_GlassContainer_props props hooks)
    container.

(** ** The filter graph as a graph *)

(** The names a stage reads. *)
Definition primitive_inputs (p : FilterPrimitive) : list string :=
  match p with
  | feImage _ _ _ => []
  | feColorMatrix input _ _ => [input]
  | feComponentTransfer input _ _ _ => [input]
  | feOffset input _ _ _ => [input]
  | feDisplacementMap input in2 _ _ _ _ => [input; in2]
  | feBlend input in2 _ _ => [input; in2]
  | feGaussianBlur input _ _ => [input]
  | feComposite input in2 _ _ => [input; in2]
  end.

(** The name a stage writes, if it names its result. *)
Definition primitive_result (p : FilterPrimitive) : option string :=
  match p with
  | feImage result _ _ => Some result
  | feColorMatrix _ _ result => Some result
  | feComponentTransfer _ _ _ result => Some result
  | feOffset _ _ _ result => Some result
  | feDisplacementMap _ _ _ _ _ result => Some result
  | feBlend _ _ _ result => Some result
  | feGaussianBlur _ _ result => Some result
  | feComposite _ _ _ result => result
  end.

Definition mem_string (s : string) (l : list string) : bool :=
  existsb (String.eqb s) l.

(** Every stage reads only names in [defined] or written by an earlier
    stage, and writes a name that is not yet taken. *)
Fixpoint reads_defined (defined : list string) (l : list FilterPrimitive)
  : bool :=
  match l with
  | [] => true
  | p :: tl =>
    forallb (fun i => mem_string i defined) (primitive_inputs p)
    && match primitive_result p with
       | Some r => negb (mem_string r defined) && reads_defined (r :: defined) tl
       | None => reads_defined defined tl
       end
  end.

(** Every named result is read by a later stage. *)
Fixpoint results_used (l : list FilterPrimitive) : bool :=
  match l with
  | [] => true
  | p :: tl =>
    match primitive_result p with
    | Some r => existsb (fun q => mem_string r (primitive_inputs q)) tl
    | None => true
    end
    && results_used tl
  end.

(** A list of numbers that never decreases. *)
Fixpoint nondecreasing (l : list R) : Prop :=
  match l with
  | a :: (b :: _) as tl => a <= b /\ nondecreasing tl
  | _ => True
  end.

(** ** Sample inputs *)

(** Props that pass only a mode, a pointer position, a pointer offset and a
    glass size, each optional. *)
Definition sample_props (mode : option string)
  (pointer offset : option Point) (size : option Size) : LiquidGlassProps :=
  {| lg_displacementScale := None;
     lg_blurAmount := None;
     lg_saturation := None;
     lg_aberrationIntensity := None;
     lg_elasticity := None;
     lg_cornerRadius := None;
     lg_globalMousePos := pointer;
     lg_mouseOffset := offset;
     lg_overLight := None;
     lg_mode := mode;
     lg_onClick := None;
     lg_glassSize := size |}.

(** The default glass, 270 by 69, with its top left corner at
    (1000, 1000). *)
Definition sample_rect : DOMRect := mkDOMRect 1000 1000 270 69.

Definition sample_size : Size := mkSize 270 69.

(** The hooks of a mounted glass that has not seen the pointer yet. *)
Definition sample_hooks : LiquidGlassHooks :=
  mkLiquidGlassHooks false false sample_size (mkPoint 0 0) (mkPoint 0 0)
    (Some sample_rect).

(** * Properties *)

(** ** [getMap] *)

Lemma getMap_standard (url : option string) :
  getMap "standard" url = Return displacementMap.
Proof. reflexivity. Qed.

Lemma getMap_polar (url : option string) :
  getMap "polar" url = Return polarDisplacementMap.
Proof. reflexivity. Qed.

Lemma getMap_prominent (url : option string) :
  getMap "prominent" url = Return prominentDisplacementMap.
Proof. reflexivity. Qed.

Lemma getMap_shader (url : option string) :
  getMap "shader" url = Return (string_or url displacementMap).
Proof. reflexivity. Qed.

Lemma getMap_unknown (mode : string) (url : option string) :
  ~ known_mode mode ->
  getMap mode url = Throw (mkError ("Invalid mode: " ++ mode)).
Proof.
  intros Hmode. unfold getMap.
  destruct (String.eqb_spec mode "standard") as [-> | _].
  { exfalso. apply Hmode. left. left. reflexivity. }
  destruct (String.eqb_spec mode "polar") as [-> | _].
  { exfalso. apply Hmode. left. right. left. reflexivity. }
  destruct (String.eqb_spec mode "prominent") as [-> | _].
  { exfalso. apply Hmode. left. right. right. reflexivity. }
  destruct (String.eqb_spec mode "shader") as [-> | _].
  { exfalso. apply Hmode. right. reflexivity. }
  reflexivity.
Qed.

Lemma getMap_known (mode : string) (url : option string) :
  known_mode mode -> exists href, getMap mode url = Return href.
Proof.
  intros [[-> | [-> | ->]] | ->]; eexists; reflexivity.
Qed.

(** The map is thrown away only by an unknown mode: [getMap] returns
    exactly on the four known ones. *)
Lemma getMap_returns_iff (mode : string) (url : option string) :
  (exists href, getMap mode url = Return href) <-> known_mode mode.
Proof.
  split.
  - intros [href Hret].
    destruct (string_dec mode "standard") as [-> | n1];
      [left; left; reflexivity |].
    destruct (string_dec mode "polar") as [-> | n2];
      [left; right; left; reflexivity |].
    destruct (string_dec mode "prominent") as [-> | n3];
      [left; right; right; reflexivity |].
    destruct (string_dec mode "shader") as [-> | n4];
      [right; reflexivity |].
    rewrite getMap_unknown in Hret; [discriminate |].
    intros [[H | [H | H]] | H]; contradiction.
  - apply getMap_known.
Qed.

Lemma string_or_nonempty (url : option string) (d : string) :
  d <> "" -> string_or url d <> "".
Proof.
  intros Hd. destruct url as [v |]; simpl; [| exact Hd].
  unfold truthy_string.
  destruct (String.eqb_spec v ""); simpl; assumption.
Qed.

Lemma string_or_supplied (v d : string) :
  v <> "" -> string_or (Some v) d = v.
Proof.
  intros Hv. simpl. unfold truthy_string.
  destruct (String.eqb_spec v ""); [contradiction | reflexivity].
Qed.

(** *** C4 *)

(** C4. For each of the modes "standard", "polar" and "prominent", [getMap]
    returns that mode's fixed asset whatever [shaderMapUrl] is (it has no
    other input), and for a mode outside the four known ones it does not
    return a map at all: it throws the error "Invalid mode: <mode>". *)
Theorem getMap_static_assets_and_invalid_mode :
  (forall url, getMap "standard" url = Return displacementMap) /\
  (forall url, getMap "polar" url = Return polarDisplacementMap) /\
  (forall url, getMap "prominent" url = Return prominentDisplacementMap) /\
  (forall mode url,
      ~ known_mode mode ->
      getMap mode url = Throw (mkError ("Invalid mode: " ++ mode))).
Proof.
  repeat split.
  intros mode url Hmode. apply getMap_unknown. exact Hmode.
Qed.

(** *** C5 *)

(** C5. With a non-empty standard asset, [getMap "shader"] returns the
    supplied shader map when there is a non-empty one, returns the standard
    asset when [shaderMapUrl] is absent or is the empty string, and in no
    case returns the empty string. *)
Theorem getMap_shader_fallback :
  displacementMap <> "" ->
  (forall url, url <> "" -> getMap "shader" (Some url) = Return url) /\
  getMap "shader" None = Return displacementMap /\
  getMap "shader" (Some "") = Return displacementMap /\
  (forall url, exists ref, getMap "shader" url = Return ref /\ ref <> "").
Proof.
  intros Hd. repeat split.
  - intros url Hurl. rewrite getMap_shader, string_or_supplied by exact Hurl.
    reflexivity.
  - intros url. exists (string_or url displacementMap). split.
    + apply getMap_shader.
    + apply string_or_nonempty. exact Hd.
Qed.


(** ** The filter graph of [GlassFilter] *)

(** Rendering the filter succeeds exactly when [getMap] does, and then the
    image stage refers to the map [getMap] returned. *)
Lemma GlassFilter_returns (props : GlassFilterProps) :
  known_mode (gf_mode props) ->
  exists href svg,
    getMap (gf_mode props) (gf_shaderMapUrl props) = Return href /\
    GlassFilter props = Return svg /\
    hd_error (filter_primitives (svg_filter svg))
    = Some (feImage "DISPLACEMENT_MAP" href "xMidYMid slice").
Proof.
  intros Hmode.
  destruct (getMap_known (gf_mode props) (gf_shaderMapUrl props) Hmode)
    as [href Hhref].
  exists href. unfold GlassFilter. rewrite Hhref. simpl.
  eexists. split; [reflexivity |]. split; reflexivity.
Qed.

Lemma GlassFilter_unknown (props : GlassFilterProps) :
  ~ known_mode (gf_mode props) ->
  GlassFilter props
  = Throw (mkError ("Invalid mode: " ++ gf_mode props)).
Proof.
  intros Hmode. unfold GlassFilter.
  rewrite getMap_unknown by exact Hmode. reflexivity.
Qed.

(** Unfolds a [GlassFilter] call whose mode is one of the four literals. *)
Ltac glass_filter_literal :=
  unfold GlassFilter; simpl gf_mode; simpl gf_shaderMapUrl;
  first [ rewrite getMap_standard | rewrite getMap_polar
        | rewrite getMap_prominent | rewrite getMap_shader ];
  unfold bind; eexists; split; [reflexivity |].

(** *** C1 *)

(** C1. Whenever the mode is "shader" (sign = 1) or one of the static modes
    "standard", "polar", "prominent" (sign = -1), the filter is built and its
    feDisplacementMap stages are exactly three, for red, green and blue, with
    scales s * sign, s * (sign - a * 0.05) and s * (sign - a * 0.1), each
    with R as the X channel selector and B as the Y channel selector. *)
Theorem GlassFilter_displacement_scales
  (id : string) (s a width height : R) (mode : string)
  (url : option string) (sign : R) :
  (mode = "shader" /\ sign = 1) \/ (static_mode mode /\ sign = -1) ->
  exists svg,
    GlassFilter (mkGlassFilterProps id s a width height mode url)
    = Return svg /\
    displacement_stages (filter_primitives (svg_filter svg))
    = [ ("RED_DISPLACED", s * sign, chR, chB);
        ("GREEN_DISPLACED", s * (sign - a * 0.05), chR, chB);
        ("BLUE_DISPLACED", s * (sign - a * 0.1), chR, chB) ].
Proof.
  intros [[-> ->] | [[-> | [-> | ->]] ->]];
    glass_filter_literal; reflexivity.
Qed.

(** *** C6 *)

(** C6. For a known mode and every aberration intensity a, the component
    transfer that produces the edge mask is a discrete lookup with the three
    table values 0, a * 0.05, 1, and the only Gaussian blur of the graph has
    standard deviation max(0.1, 0.5 - a * 0.1); at a = 2 these are
    0, 0.1, 1 and 0.3, and at a = 0 the middle table value is 0. *)
Theorem GlassFilter_edge_mask_and_blur
  (id : string) (s a width height : R) (mode : string)
  (url : option string) :
  known_mode mode ->
  exists svg table_values deviation,
    GlassFilter (mkGlassFilterProps id s a width height mode url)
    = Return svg /\
    transfer_table "EDGE_MASK" (filter_primitives (svg_filter svg))
    = Some (discrete, table_values) /\
    blur_deviations (filter_primitives (svg_filter svg)) = [deviation] /\
    table_values = [0; a * 0.05; 1] /\
    deviation = Rmax 0.1 (0.5 - a * 0.1) /\
    (a = 2 -> table_values = [0; 0.1; 1] /\ deviation = 0.3) /\
    (a = 0 -> table_values = [0; 0; 1]).
Proof.
  intros [[-> | [-> | ->]] | ->].
  all: unfold GlassFilter; simpl gf_mode; simpl gf_shaderMapUrl.
  all: first [ rewrite getMap_standard | rewrite getMap_polar
             | rewrite getMap_prominent | rewrite getMap_shader ].
  all: unfold bind; eexists; exists [0; a * 0.05; 1];
    exists (Rmax 0.1 (0.5 - a * 0.1)).
  all: split; [reflexivity |].
  all: split; [reflexivity |].
  all: split; [reflexivity |].
  all: split; [reflexivity |].
  all: split; [reflexivity |].
  all: split.
  all: try (intros ->; split;
            [ repeat f_equal; lra
            | unfold Rmax; destruct (Rle_dec _ _); lra ]).
  all: intros ->; repeat f_equal; lra.
Qed.

(** *** C7 *)

(** C7. For a known mode and every glass box, the filter region starts at
    x = -0.1 * width, y = -0.1 * height and is 1.2 * width wide and
    1.2 * height high; so it extends the box [0, width] x [0, height] of the
    svg element by 0.1 * width to the left and to the right and by
    0.1 * height above and below. *)
Theorem GlassFilter_region
  (id : string) (s a width height : R) (mode : string)
  (url : option string) :
  known_mode mode ->
  exists svg,
    GlassFilter (mkGlassFilterProps id s a width height mode url)
    = Return svg /\
    svg_width svg = width /\
    svg_height svg = height /\
    filter_x (svg_filter svg) = -0.1 * width /\
    filter_y (svg_filter svg) = -0.1 * height /\
    filter_width (svg_filter svg) = 1.2 * width /\
    filter_height (svg_filter svg) = 1.2 * height /\
    0 - filter_x (svg_filter svg) = 0.1 * width /\
    filter_x (svg_filter svg) + filter_width (svg_filter svg) - width
    = 0.1 * width /\
    0 - filter_y (svg_filter svg) = 0.1 * height /\
    filter_y (svg_filter svg) + filter_height (svg_filter svg) - height
    = 0.1 * height.
Proof.
  intros [[-> | [-> | ->]] | ->]; glass_filter_literal;
    simpl; repeat split; lra.
Qed.

(** ** The pointer callbacks *)

Lemma truthy_number_zero (n : R) : n = 0 -> truthy_number n = false.
Proof.
  intros ->. unfold truthy_number.
  destruct (Req_dec_T 0 0) as [_ | Hne]; [reflexivity | contradiction].
Qed.

Lemma truthy_number_nonzero (n : R) : n <> 0 -> truthy_number n = true.
Proof.
  intros Hn. unfold truthy_number.
  destruct (Req_dec_T n 0) as [He | _]; [contradiction | reflexivity].
Qed.

(** Both guarded callbacks compute the distance that [edgeDistance] names. *)
Lemma calculateFadeInFactor_unguarded
  (pos : Point) (rect : DOMRect) (size : Size) :
  pt_x pos <> 0 -> pt_y pos <> 0 ->
  calculateFadeInFactor pos (Some rect) size
  = if Rgt_dec (edgeDistance pos rect size) 200 then 0
    else 1 - edgeDistance pos rect size / 200.
Proof.
  intros Hx Hy. unfold calculateFadeInFactor.
  rewrite (truthy_number_nonzero _ Hx), (truthy_number_nonzero _ Hy).
  reflexivity.
Qed.

Lemma calculateFadeInFactor_outside
  (pos : Point) (glassRef : option DOMRect) (size : Size) :
  (forall rect, glassRef = Some rect -> edgeDistance pos rect size > 200) ->
  calculateFadeInFactor pos glassRef size = 0.
Proof.
  intros Hfar. unfold calculateFadeInFactor.
  destruct (negb (truthy_number (pt_x pos)) || negb (truthy_number (pt_y pos))
            || negb (is_some glassRef)); [reflexivity |].
  destruct glassRef as [rect |]; [| reflexivity].
  specialize (Hfar rect eq_refl). unfold edgeDistance in Hfar.
  cbv zeta in *.
  destruct (Rgt_dec _ 200) as [_ | Hnot]; [reflexivity | contradiction].
Qed.

Lemma calculateDirectionalScale_outside
  (pos : Point) (glassRef : option DOMRect) (size : Size) (elasticity : R) :
  (forall rect, glassRef = Some rect -> edgeDistance pos rect size > 200) ->
  calculateDirectionalScale pos glassRef size elasticity = scale_uniform 1.
Proof.
  intros Hfar. unfold calculateDirectionalScale.
  destruct (negb (truthy_number (pt_x pos)) || negb (truthy_number (pt_y pos))
            || negb (is_some glassRef)); [reflexivity |].
  destruct glassRef as [rect |]; [| reflexivity].
  specialize (Hfar rect eq_refl). unfold edgeDistance in Hfar.
  cbv zeta in *.
  destruct (Rgt_dec _ 200) as [_ | Hnot]; [reflexivity | contradiction].
Qed.

Lemma calculateElasticTranslation_faded
  (pos : Point) (glassRef : option DOMRect) (size : Size) (elasticity : R) :
  calculateFadeInFactor pos glassRef size = 0 ->
  calculateElasticTranslation pos glassRef size elasticity = mkPoint 0 0.
Proof.
  intros Hfade. unfold calculateElasticTranslation.
  destruct glassRef as [rect |]; [| reflexivity].
  rewrite Hfade. f_equal; lra.
Qed.

(** Along one axis: the square of the overshoot beyond the half-extent is
    the square of the offset to the nearest coordinate of the box. *)
Lemma axis_overshoot_sqr (p c half : R) :
  0 <= half ->
  Rmax 0 (Rabs (p - c) - half) * Rmax 0 (Rabs (p - c) - half)
  = (p - clamp (c - half) (c + half) p) * (p - clamp (c - half) (c + half) p).
Proof.
  intros Hhalf. unfold clamp, Rmax, Rmin, Rabs.
  destruct (Rcase_abs (p - c));
    destruct (Rle_dec (c + half) p);
    repeat match goal with
           | |- context [Rle_dec ?a ?b] => destruct (Rle_dec a b)
           end;
    nra.
Qed.

(** For a glass size with no negative side, the distance the callbacks
    compute is the distance from the pointer to the box. *)
Lemma edgeDistance_is_distance_to_box
  (pos : Point) (rect : DOMRect) (size : Size) :
  0 <= size_width size -> 0 <= size_height size ->
  edgeDistance pos rect size = distance_to_box pos rect size.
Proof.
  intros Hw Hh. unfold edgeDistance, distance_to_box. cbv zeta.
  rewrite (axis_overshoot_sqr (pt_x pos) _ (size_width size / 2)) by lra.
  rewrite (axis_overshoot_sqr (pt_y pos) _ (size_height size / 2)) by lra.
  reflexivity.
Qed.

(** *** C2 *)

(** C2. When the distance from the pointer to the nearest edge of the glass
    box is more than 200, [calculateDirectionalScale] returns scale(1), that
    is the factors (1, 1), and [calculateElasticTranslation] returns the
    translation (0, 0). *)
Theorem outside_activation_zone_identity
  (pos : Point) (rect : DOMRect) (size : Size) (elasticity : R) :
  edgeDistance pos rect size > 200 ->
  calculateDirectionalScale pos (Some rect) size elasticity = scale_uniform 1
  /\ scale_factors (calculateDirectionalScale pos (Some rect) size elasticity)
     = (1, 1)
  /\ calculateElasticTranslation pos (Some rect) size elasticity
     = mkPoint 0 0.
Proof.
  intros Hfar.
  assert (Hall : forall r, Some rect = Some r -> edgeDistance pos r size > 200)
    by (intros r [= <-]; exact Hfar).
  rewrite (calculateDirectionalScale_outside _ _ _ _ Hall).
  repeat split.
  apply calculateElasticTranslation_faded.
  apply calculateFadeInFactor_outside. exact Hall.
Qed.

(** *** C3 *)

(** C3. Whatever the pointer position, the rectangle of the glass element
    (or its absence), the glass size and the elasticity, both factors of the
    scale returned by [calculateDirectionalScale] are at least 0.8. *)
Theorem directional_scale_floor
  (pos : Point) (glassRef : option DOMRect) (size : Size) (elasticity : R) :
  0.8 <= fst (scale_factors
                (calculateDirectionalScale pos glassRef size elasticity))
  /\ 0.8 <= snd (scale_factors
                   (calculateDirectionalScale pos glassRef size elasticity)).
Proof.
  unfold calculateDirectionalScale.
  destruct (negb (truthy_number (pt_x pos)) || negb (truthy_number (pt_y pos))
            || negb (is_some glassRef)); [simpl; lra |].
  destruct glassRef as [rect |]; [| simpl; lra].
  cbv zeta.
  destruct (Rgt_dec _ 200); [simpl; lra |].
  destruct (Req_dec_T _ 0); [simpl; lra |].
  simpl. split; apply Rmax_l.
Qed.

(** *** C9 *)

(** C9. When the x coordinate or the y coordinate of the pointer is 0,
    [calculateDirectionalScale] returns scale(1) and [calculateFadeInFactor]
    returns 0, whatever the rectangle of the glass element, the glass size
    and the elasticity are. *)
Theorem zero_coordinate_is_no_pointer
  (pos : Point) (glassRef : option DOMRect) (size : Size) (elasticity : R) :
  pt_x pos = 0 \/ pt_y pos = 0 ->
  calculateDirectionalScale pos glassRef size elasticity = scale_uniform 1
  /\ scale_factors (calculateDirectionalScale pos glassRef size elasticity)
     = (1, 1)
  /\ calculateFadeInFactor pos glassRef size = 0.
Proof.
  intros Hzero.
  assert (Hguard :
            negb (truthy_number (pt_x pos)) || negb (truthy_number (pt_y pos))
            || negb (is_some glassRef) = true).
  { destruct Hzero as [Hx | Hy].
    - rewrite (truthy_number_zero _ Hx). reflexivity.
    - rewrite (truthy_number_zero _ Hy). simpl.
      rewrite orb_true_r. reflexivity. }
  unfold calculateDirectionalScale, calculateFadeInFactor.
  rewrite Hguard. repeat split.
Qed.

(** *** The callbacks at concrete pointers *)

(** A pointer level with the centre of the box and to the right of it is
    as far from the box as it is from the right edge. *)
Lemma edgeDistance_right_of_box (pos : Point) (rect : DOMRect) (size : Size) :
  pt_y pos = rect_top rect + rect_height rect / 2 ->
  0 <= size_width size ->
  0 <= size_height size ->
  size_width size / 2 <= pt_x pos - (rect_left rect + rect_width rect / 2) ->
  edgeDistance pos rect size
  = pt_x pos - (rect_left rect + rect_width rect / 2) - size_width size / 2.
Proof.
  intros Hy Hw Hh Hx. unfold edgeDistance. cbv zeta.
  rewrite Hy.
  replace (rect_top rect + rect_height rect / 2
           - (rect_top rect + rect_height rect / 2)) with 0 by lra.
  rewrite Rabs_R0.
  rewrite (Rmax_left 0 (0 - size_height size / 2)) by lra.
  rewrite (Rabs_pos_eq (pt_x pos - _)) by lra.
  rewrite Rmax_right by lra.
  rewrite Rmult_0_r, Rplus_0_r.
  apply sqrt_square. lra.
Qed.

(** The default box, 270 by 69, with its top left corner at (1000, 1000)
    and the pointer 300 to the right of its centre: 165 from the edge, the
    fade-in factor is 0.175 and the box is stretched horizontally. *)
Example directional_scale_300_right :
  calculateDirectionalScale (mkPoint 1435 1034.5)
    (Some (mkDOMRect 1000 1000 270 69)) (mkSize 270 69) 0.15
  = scaleX_scaleY 1.007875 0.9960625.
Proof.
  unfold calculateDirectionalScale.
  rewrite !truthy_number_nonzero by (simpl; lra).
  simpl.
  replace (1435 - (1000 + 270 / 2)) with 300 by lra.
  replace (1034.5 - (1000 + 69 / 2)) with 0 by lra.
  rewrite Rabs_R0, (Rabs_pos_eq 300) by lra.
  rewrite (Rmax_right 0 (300 - 270 / 2)), (Rmax_left 0 (0 - 69 / 2)) by lra.
  replace ((300 - 270 / 2) * (300 - 270 / 2) + 0 * 0) with (165 * 165) by lra.
  replace (300 * 300 + 0 * 0) with (300 * 300) by lra.
  rewrite !sqrt_square by lra.
  destruct (Rgt_dec 165 200) as [Hgt | _]; [lra |].
  destruct (Req_dec_T 300 0) as [Heq | _]; [lra |].
  replace (300 / 300) with 1 by lra.
  replace (0 / 300) with 0 by lra.
  rewrite Rabs_R0, Rabs_R1, Rmin_left by lra.
  rewrite !Rmax_right by lra.
  f_equal; lra.
Qed.

(** With elasticity 10 and the pointer 100 below the centre of the same
    box, the horizontal stretch would be 0.66375: the floor is what is
    returned. *)
Example directional_scale_floor_reached :
  calculateDirectionalScale (mkPoint 1135 1134.5)
    (Some (mkDOMRect 1000 1000 270 69)) (mkSize 270 69) 10
  = scaleX_scaleY 0.8 1.6725.
Proof.
  unfold calculateDirectionalScale.
  rewrite !truthy_number_nonzero by (simpl; lra).
  simpl.
  replace (1135 - (1000 + 270 / 2)) with 0 by lra.
  replace (1134.5 - (1000 + 69 / 2)) with 100 by lra.
  rewrite Rabs_R0, (Rabs_pos_eq 100) by lra.
  rewrite (Rmax_left 0 (0 - 270 / 2)), (Rmax_right 0 (100 - 69 / 2)) by lra.
  replace (0 * 0 + (100 - 69 / 2) * (100 - 69 / 2))
    with (65.5 * 65.5) by lra.
  replace (0 * 0 + 100 * 100) with (100 * 100) by lra.
  rewrite !sqrt_square by lra.
  destruct (Rgt_dec 65.5 200) as [Hgt | _]; [lra |].
  destruct (Req_dec_T 100 0) as [Heq | _]; [lra |].
  replace (100 / 100) with 1 by lra.
  replace (0 / 100) with 0 by lra.
  rewrite Rabs_R0, Rabs_R1, Rmin_left by lra.
  rewrite Rmax_left, Rmax_right by lra.
  f_equal; lra.
Qed.

(** A box whose left edge is 10 from the left edge of the window.  One unit
    into the window the fade-in factor is 0.955; on the edge itself, at
    x = 0, it is 0. *)
Example fade_in_next_to_window_edge :
  calculateFadeInFactor (mkPoint 1 44.5)
    (Some (mkDOMRect 10 10 270 69)) (mkSize 270 69) = 0.955
  /\ calculateFadeInFactor (mkPoint 0 44.5)
       (Some (mkDOMRect 10 10 270 69)) (mkSize 270 69) = 0.
Proof.
  split.
  - unfold calculateFadeInFactor.
    rewrite !truthy_number_nonzero by (simpl; lra).
    simpl.
    replace (1 - (10 + 270 / 2)) with (Ropp 144) by lra.
    replace (44.5 - (10 + 69 / 2)) with 0 by lra.
    rewrite Rabs_R0, Rabs_Ropp, (Rabs_pos_eq 144) by lra.
    rewrite (Rmax_right 0 (144 - 270 / 2)), (Rmax_left 0 (0 - 69 / 2)) by lra.
    replace ((144 - 270 / 2) * (144 - 270 / 2) + 0 * 0) with (9 * 9) by lra.
    rewrite sqrt_square by lra.
    destruct (Rgt_dec 9 200) as [Hgt | _]; lra.
  - unfold calculateFadeInFactor.
    rewrite (truthy_number_zero (pt_x (mkPoint 0 44.5))) by reflexivity.
    reflexivity.
Qed.

(** ** The composed transform *)

Lemma dynamicTransform_translate
  (props : LiquidGlassProps) (hooks : LiquidGlassHooks) :
  snd (dynamicTransform props hooks)
  = calculateElasticTranslation
      (default (internalGlobalMousePos hooks) (lg_globalMousePos props))
      (glassRef_current hooks) (glassSize_state hooks)
      (default 0.15 (lg_elasticity props)).
Proof. reflexivity. Qed.

(** Not pressed, or without a click handler, the scale is the one derived
    from the pointer. *)
Lemma dynamicTransform_pointer_scale
  (props : LiquidGlassProps) (hooks : LiquidGlassHooks) :
  isActive hooks = false \/ lg_onClick props = None ->
  fst (dynamicTransform props hooks)
  = calculateDirectionalScale
      (default (internalGlobalMousePos hooks) (lg_globalMousePos props))
      (glassRef_current hooks) (glassSize_state hooks)
      (default 0.15 (lg_elasticity props)).
Proof.
  intros [Hup | Hnone]; unfold dynamicTransform; simpl.
  - rewrite Hup. reflexivity.
  - rewrite Hnone. simpl. rewrite andb_false_r. reflexivity.
Qed.

(** *** C8 *)

(** C8. When the element has a click handler and [isActive] is set, the
    scale part of the composed transform is scale(0.96), and the translation
    part is the elastic translation: the same one as with [isActive]
    unset. *)
Theorem pressed_scale_override
  (props : LiquidGlassProps) (onClick : EventHandler)
  (hovered : bool) (size : Size) (pos offset : Point)
  (glassRef : option DOMRect) :
  lg_onClick props = Some onClick ->
  let pressed := mkLiquidGlassHooks hovered true size pos offset glassRef in
  let released := mkLiquidGlassHooks hovered false size pos offset glassRef in
  fst (dynamicTransform props pressed) = scale_uniform 0.96
  /\ snd (dynamicTransform props pressed)
     = calculateElasticTranslation
         (default pos (lg_globalMousePos props)) glassRef size
         (default 0.15 (lg_elasticity props))
  /\ snd (dynamicTransform props pressed)
     = snd (dynamicTransform props released).
Proof.
  intros Hclick pressed released. unfold dynamicTransform.
  rewrite Hclick. repeat split.
Qed.

(** ** The props that reach the filter *)

(** *** C10 *)

(** C10. The displacement scale with which [LiquidGlass] has its filter
    built is half the configured one (70 when none is configured) when
    [overLight] is true and the configured one when it is false or absent;
    the aberration intensity, the mode, and also the id, the size and the
    shader map handed to the filter are what they are without looking at
    [overLight]. *)
Theorem overLight_halves_displacementScale
  (props : LiquidGlassProps) (hooks : LiquidGlassHooks)
  (container : GlassContainerHooks) :
  let filter_props := LiquidGlass_GlassFilter_props props hooks container in
  let configured := default 70 (lg_displacementScale props) in
  gf_displacementScale filter_props
  = (if default false (lg_overLight props)
     then configured / 2 else configured)
  /\ gf_aberrationIntensity filter_props
     = default 2 (lg_aberrationIntensity props)
  /\ gf_mode filter_props = default "standard" (lg_mode props)
  /\ gf_id filter_props = filterId container
  /\ gf_width filter_props = size_width (glassSize_state hooks)
  /\ gf_height filter_props = size_height (glassSize_state hooks)
  /\ gf_shaderMapUrl filter_props = Some (shaderMapUrl container).
Proof.
  simpl. repeat split.
  destruct (default false (lg_overLight props)); lra.
Qed.

(** The backdrop blur, which is CSS on the warp layer and no part of the
    SVG filter, does depend on [overLight]: it is 8 more over light. *)
Lemma overLight_backdrop_blur (props : GlassContainerProps) :
  gc_overLight props = Some true ->
  GlassContainer_backdrop_blur props
  = 12 + default 12 (gc_blurAmount props) * 32.
Proof.
  intros Hlight. unfold GlassContainer_backdrop_blur.
  rewrite Hlight. reflexivity.
Qed.

(** In shader mode, as long as the [shaderMapUrl] state of the container is
    the empty string it starts with, the image stage of the filter of a
    [LiquidGlass] refers to the standard asset. *)
Lemma shader_mode_before_generation
  (props : LiquidGlassProps) (hooks : LiquidGlassHooks) (id : string) :
  lg_mode props = Some "shader" ->
  exists svg,
    GlassFilter
      (LiquidGlass_GlassFilter_props props hooks (mkGlassContainerHooks id ""))
    = Return svg /\
    hd_error (filter_primitives (svg_filter svg))
    = Some (feImage "DISPLACEMENT_MAP" displacementMap "xMidYMid slice").
Proof.
  intros Hmode. unfold GlassFilter. simpl. rewrite Hmode. simpl.
  eexists. split; reflexivity.
Qed.

(** * Further properties of the pointer callbacks *)

Lemma edgeDistance_nonneg (pos : Point) (rect : DOMRect) (size : Size) :
  0 <= edgeDistance pos rect size.
Proof. unfold edgeDistance. cbv zeta. apply sqrt_pos. Qed.

(** A coordinate of a vector is at most its length. *)
Lemma Rabs_le_norm (dx dy : R) : Rabs dx <= sqrt (dx * dx + dy * dy).
Proof.
  rewrite <- (sqrt_Rsqr_abs dx). unfold Rsqr.
  apply sqrt_le_1_alt. nra.
Qed.

Lemma norm_comm (dx dy : R) :
  sqrt (dy * dy + dx * dx) = sqrt (dx * dx + dy * dy).
Proof. f_equal. lra. Qed.

(** A coordinate of a normalised vector is at most 1 in absolute value. *)
Lemma Rabs_normalized_le_1 (dx dy : R) :
  sqrt (dx * dx + dy * dy) <> 0 ->
  0 <= Rabs (dx / sqrt (dx * dx + dy * dy)) <= 1.
Proof.
  intros Hne. split; [apply Rabs_pos |].
  assert (Hpos : 0 < sqrt (dx * dx + dy * dy)).
  { pose proof (sqrt_pos (dx * dx + dy * dy)). lra. }
  unfold Rdiv. rewrite Rabs_mult, Rabs_inv, (Rabs_pos_eq (sqrt _)) by lra.
  apply (Rmult_le_reg_r (sqrt (dx * dx + dy * dy))); [exact Hpos |].
  rewrite Rmult_assoc, Rinv_l, Rmult_1_r, Rmult_1_l by exact Hne.
  apply Rabs_le_norm.
Qed.

(** The stretch of one axis, for factors in the ranges they have in
    [calculateDirectionalScale]. *)
Lemma stretch_bounds (a b m e f : R) :
  0 <= a <= 1 -> 0 <= b <= 1 -> 0 <= m <= 1 -> 0 <= f <= 1 -> 0 <= e ->
  1 - 0.15 * e <= 1 + a * (m * e * f) * 0.3 - b * (m * e * f) * 0.15
  <= 1 + 0.3 * e.
Proof.
  intros Ha Hb Hm Hf He.
  assert (Hme : 0 <= m * e <= e) by nra.
  assert (HI : 0 <= m * e * f <= e) by nra.
  assert (HaI : 0 <= a * (m * e * f) <= e) by nra.
  assert (HbI : 0 <= b * (m * e * f) <= e) by nra.
  lra.
Qed.

(** The fade-in factor is a number between 0 and 1, whatever the pointer,
    the rectangle and the glass size are. *)
Theorem calculateFadeInFactor_range
  (pos : Point) (glassRef : option DOMRect) (size : Size) :
  0 <= calculateFadeInFactor pos glassRef size <= 1.
Proof.
  unfold calculateFadeInFactor.
  destruct (negb (truthy_number (pt_x pos)) || negb (truthy_number (pt_y pos))
            || negb (is_some glassRef)); [lra |].
  destruct glassRef as [rect |]; [| lra].
  pose proof (edgeDistance_nonneg pos rect size) as Hnn.
  unfold edgeDistance in Hnn. cbv zeta in Hnn |- *.
  destruct (Rgt_dec _ 200) as [Hgt | Hle]; lra.
Qed.

(** With a pointer whose coordinates are not zero and which is within half
    the glass width and half the glass height of the centre, the fade-in
    factor is 1 and the translation is the offset from the centre times the
    elasticity times 0.1. *)
Theorem pointer_inside_box
  (pos : Point) (rect : DOMRect) (size : Size) (elasticity : R) :
  pt_x pos <> 0 -> pt_y pos <> 0 ->
  Rabs (pt_x pos - (rect_left rect + rect_width rect / 2))
    <= size_width size / 2 ->
  Rabs (pt_y pos - (rect_top rect + rect_height rect / 2))
    <= size_height size / 2 ->
  edgeDistance pos rect size = 0
  /\ calculateFadeInFactor pos (Some rect) size = 1
  /\ calculateElasticTranslation pos (Some rect) size elasticity
     = mkPoint
         ((pt_x pos - (rect_left rect + rect_width rect / 2))
          * elasticity * 0.1)
         ((pt_y pos - (rect_top rect + rect_height rect / 2))
          * elasticity * 0.1).
Proof.
  intros Hx Hy Hin_x Hin_y.
  assert (Hedge : edgeDistance pos rect size = 0).
  { unfold edgeDistance. cbv zeta.
    rewrite !Rmax_left by lra.
    rewrite Rmult_0_r, Rplus_0_r. apply sqrt_0. }
  assert (Hfade : calculateFadeInFactor pos (Some rect) size = 1).
  { rewrite calculateFadeInFactor_unguarded by assumption.
    rewrite Hedge. destruct (Rgt_dec 0 200); lra. }
  split; [exact Hedge |]. split; [exact Hfade |].
  unfold calculateElasticTranslation. rewrite Hfade. f_equal; lra.
Qed.

(** Whenever the fade-in factor is 0, the scale factors are (1, 1) and the
    translation is (0, 0); this includes a pointer exactly 200 from the
    box. *)
Theorem fade_zero_identity
  (pos : Point) (glassRef : option DOMRect) (size : Size) (elasticity : R) :
  calculateFadeInFactor pos glassRef size = 0 ->
  scale_factors (calculateDirectionalScale pos glassRef size elasticity)
  = (1, 1)
  /\ calculateElasticTranslation pos glassRef size elasticity = mkPoint 0 0.
Proof.
  intros Hfade. split.
  - revert Hfade. unfold calculateFadeInFactor, calculateDirectionalScale.
    destruct (negb (truthy_number (pt_x pos))
              || negb (truthy_number (pt_y pos))
              || negb (is_some glassRef)); [reflexivity |].
    destruct glassRef as [rect |]; [| reflexivity].
    cbv zeta.
    destruct (Rgt_dec _ 200) as [Hgt | Hle]; [reflexivity |].
    intros Hfade.
    destruct (Req_dec_T _ 0) as [Hc | Hc]; [reflexivity |].
    rewrite Hfade. simpl.
    rewrite !Rmult_0_r, !Rmult_0_l, Rplus_0_r, Rminus_0_r.
    rewrite Rmax_right by lra. reflexivity.
  - apply calculateElasticTranslation_faded. exact Hfade.
Qed.

(** With the pointer exactly at the centre of the rectangle of the glass
    element, the scale is scale(1) and the translation is (0, 0). *)
Theorem pointer_at_centre_identity
  (pos : Point) (rect : DOMRect) (size : Size) (elasticity : R) :
  pt_x pos = rect_left rect + rect_width rect / 2 ->
  pt_y pos = rect_top rect + rect_height rect / 2 ->
  calculateDirectionalScale pos (Some rect) size elasticity = scale_uniform 1
  /\ calculateElasticTranslation pos (Some rect) size elasticity
     = mkPoint 0 0.
Proof.
  intros Hx Hy. split.
  - unfold calculateDirectionalScale.
    destruct (negb (truthy_number (pt_x pos))
              || negb (truthy_number (pt_y pos))
              || negb (is_some (Some rect))); [reflexivity |].
    cbv zeta.
    destruct (Rgt_dec _ 200); [reflexivity |].
    destruct (Req_dec_T _ 0) as [_ | Hc]; [reflexivity |].
    exfalso. apply Hc. rewrite Hx, Hy.
    replace (_ * _ + _ * _) with 0 by lra. apply sqrt_0.
  - unfold calculateElasticTranslation. rewrite Hx, Hy. f_equal; lra.
Qed.

(** For an elasticity that is not negative, both scale factors lie between
    max(0.8, 1 - 0.15 * elasticity) and 1 + 0.3 * elasticity. *)
Theorem directional_scale_bounds
  (pos : Point) (glassRef : option DOMRect) (size : Size) (elasticity : R) :
  0 <= elasticity ->
  Rmax 0.8 (1 - 0.15 * elasticity)
  <= fst (scale_factors
            (calculateDirectionalScale pos glassRef size elasticity))
  <= 1 + 0.3 * elasticity
  /\ Rmax 0.8 (1 - 0.15 * elasticity)
     <= snd (scale_factors
               (calculateDirectionalScale pos glassRef size elasticity))
     <= 1 + 0.3 * elasticity.
Proof.
  intros He.
  assert (Hone : Rmax 0.8 (1 - 0.15 * elasticity) <= 1 <= 1 + 0.3 * elasticity).
  { split; [apply Rmax_lub; lra | lra]. }
  unfold calculateDirectionalScale.
  destruct (negb (truthy_number (pt_x pos)) || negb (truthy_number (pt_y pos))
            || negb (is_some glassRef)); [simpl; split; exact Hone |].
  destruct glassRef as [rect |]; [| simpl; split; exact Hone].
  pose proof (edgeDistance_nonneg pos rect size) as Hnn.
  unfold edgeDistance in Hnn. cbv zeta in Hnn |- *.
  set (dx := pt_x pos - (rect_left rect + rect_width rect / 2)) in Hnn |- *.
  set (dy := pt_y pos - (rect_top rect + rect_height rect / 2)) in Hnn |- *.
  destruct (Rgt_dec _ 200) as [Hgt | Hle]; [simpl; split; exact Hone |].
  destruct (Req_dec_T (sqrt (dx * dx + dy * dy)) 0) as [Hc | Hc];
    [simpl; split; exact Hone |].
  pose proof (Rabs_normalized_le_1 dx dy Hc) as Hnx.
  assert (Hc' : sqrt (dy * dy + dx * dx) <> 0) by (rewrite norm_comm; exact Hc).
  pose proof (Rabs_normalized_le_1 dy dx Hc') as Hny.
  rewrite norm_comm in Hny.
  assert (Hm : 0 <= Rmin (sqrt (dx * dx + dy * dy) / 300) 1 <= 1).
  { split; [| apply Rmin_r].
    apply Rmin_glb; [| lra].
    pose proof (sqrt_pos (dx * dx + dy * dy)). lra. }
  match goal with
  | |- context [1 - ?ed / 200] =>
      assert (Hf : 0 <= 1 - ed / 200 <= 1) by lra
  end.
  pose proof (stretch_bounds _ _ _ _ _ Hnx Hny Hm Hf He) as Hsx.
  pose proof (stretch_bounds _ _ _ _ _ Hny Hnx Hm Hf He) as Hsy.
  simpl. split; split.
  - apply Rle_max_compat_l. exact (proj1 Hsx).
  - apply Rmax_lub; [lra | exact (proj2 Hsx)].
  - apply Rle_max_compat_l. exact (proj1 Hsy).
  - apply Rmax_lub; [lra | exact (proj2 Hsy)].
Qed.

(** For an elasticity that is not negative, the glass is scaled more along
    the axis on which the pointer is further from the centre. *)
Theorem directional_scale_follows_pointer
  (pos : Point) (rect : DOMRect) (size : Size) (elasticity : R) :
  0 <= elasticity ->
  Rabs (pt_y pos - (rect_top rect + rect_height rect / 2))
  <= Rabs (pt_x pos - (rect_left rect + rect_width rect / 2)) ->
  snd (scale_factors
         (calculateDirectionalScale pos (Some rect) size elasticity))
  <= fst (scale_factors
            (calculateDirectionalScale pos (Some rect) size elasticity)).
Proof.
  intros He Hfar.
  unfold calculateDirectionalScale.
  destruct (negb (truthy_number (pt_x pos)) || negb (truthy_number (pt_y pos))
            || negb (is_some (Some rect))); [simpl; lra |].
  pose proof (edgeDistance_nonneg pos rect size) as Hnn.
  unfold edgeDistance in Hnn. cbv zeta in Hnn |- *.
  set (dx := pt_x pos - (rect_left rect + rect_width rect / 2)) in Hnn |- *.
  set (dy := pt_y pos - (rect_top rect + rect_height rect / 2)) in Hnn |- *.
  destruct (Rgt_dec _ 200) as [Hgt | Hle]; [simpl; lra |].
  destruct (Req_dec_T (sqrt (dx * dx + dy * dy)) 0) as [Hc | Hc];
    [simpl; lra |].
  assert (Hpos : 0 < sqrt (dx * dx + dy * dy)).
  { pose proof (sqrt_pos (dx * dx + dy * dy)). lra. }
  assert (Hn : Rabs (dy / sqrt (dx * dx + dy * dy))
               <= Rabs (dx / sqrt (dx * dx + dy * dy))).
  { unfold Rdiv. rewrite !Rabs_mult.
    apply Rmult_le_compat_r; [apply Rabs_pos | exact Hfar]. }
  assert (Hm : 0 <= Rmin (sqrt (dx * dx + dy * dy) / 300) 1).
  { apply Rmin_glb; lra. }
  match goal with
  | |- context [1 - ?ed / 200] =>
      assert (Hf : 0 <= 1 - ed / 200) by lra
  end.
  simpl. apply Rle_max_compat_l.
  match goal with
  | |- context [?m * elasticity * ?f] =>
      assert (HI : 0 <= m * elasticity * f)
        by (apply Rmult_le_pos; [apply Rmult_le_pos |]; assumption);
      set (intensity := m * elasticity * f) in HI |- *
  end.
  set (nx := Rabs (dx / sqrt (dx * dx + dy * dy))) in Hn |- *.
  set (ny := Rabs (dy / sqrt (dx * dx + dy * dy))) in Hn |- *.
  assert (Hgap : 0 <= (nx - ny) * intensity)
    by (apply Rmult_le_pos; lra).
  lra.
Qed.

(** The translation is at most 0.1 * |elasticity| times the offset of the
    pointer from the centre, on each axis, and for an elasticity that is not
    negative it points from the centre towards the pointer. *)
Theorem elastic_translation_bound
  (pos : Point) (rect : DOMRect) (size : Size) (elasticity : R) :
  let dx := pt_x pos - (rect_left rect + rect_width rect / 2) in
  let dy := pt_y pos - (rect_top rect + rect_height rect / 2) in
  let t := calculateElasticTranslation pos (Some rect) size elasticity in
  Rabs (pt_x t) <= 0.1 * Rabs elasticity * Rabs dx
  /\ Rabs (pt_y t) <= 0.1 * Rabs elasticity * Rabs dy
  /\ (0 <= elasticity -> 0 <= pt_x t * dx /\ 0 <= pt_y t * dy).
Proof.
  intros dx dy t.
  assert (Hf : 0 <= calculateFadeInFactor pos (Some rect) size <= 1).
  { unfold calculateFadeInFactor.
    destruct (negb (truthy_number (pt_x pos))
              || negb (truthy_number (pt_y pos))
              || negb (is_some (Some rect))); [lra |].
    pose proof (edgeDistance_nonneg pos rect size) as Hnn.
    unfold edgeDistance in Hnn. cbv zeta in Hnn |- *.
    destruct (Rgt_dec _ 200) as [Hgt | Hle]; lra. }
  unfold t, calculateElasticTranslation. simpl. fold dx dy.
  set (f := calculateFadeInFactor pos (Some rect) size) in Hf |- *.
  rewrite !Rabs_mult, (Rabs_pos_eq 0.1), (Rabs_pos_eq f) by lra.
  pose proof (Rabs_pos dx) as Hdx. pose proof (Rabs_pos dy) as Hdy.
  pose proof (Rabs_pos elasticity) as Hae.
  repeat split.
  - assert (0 <= Rabs dx * Rabs elasticity) by nra. nra.
  - assert (0 <= Rabs dy * Rabs elasticity) by nra. nra.
  - assert (0 <= dx * dx) by nra. assert (0 <= elasticity * f) by nra. nra.
  - assert (0 <= dy * dy) by nra. assert (0 <= elasticity * f) by nra. nra.
Qed.

(** With elasticity 0 the pointer has no effect: the scale factors are
    (1, 1) and the translation is (0, 0). *)
Theorem zero_elasticity_identity
  (pos : Point) (glassRef : option DOMRect) (size : Size) :
  scale_factors (calculateDirectionalScale pos glassRef size 0) = (1, 1)
  /\ calculateElasticTranslation pos glassRef size 0 = mkPoint 0 0.
Proof.
  split.
  - unfold calculateDirectionalScale.
    destruct (negb (truthy_number (pt_x pos))
              || negb (truthy_number (pt_y pos))
              || negb (is_some glassRef)); [reflexivity |].
    destruct glassRef as [rect |]; [| reflexivity].
    cbv zeta.
    destruct (Rgt_dec _ 200); [reflexivity |].
    destruct (Req_dec_T _ 0); [reflexivity |].
    simpl. rewrite !Rmult_0_r, !Rmult_0_l, !Rmult_0_r, !Rmult_0_l.
    rewrite Rplus_0_r, Rminus_0_r, Rmax_right by lra. reflexivity.
  - unfold calculateElasticTranslation.
    destruct glassRef as [rect |]; [| reflexivity].
    f_equal; lra.
Qed.

(** * Properties of the pointer tracking and of the composed transform *)

(** At the first render, with [glassRef] still null and nothing pressed, the
    composed transform is scale(1) translate(0px, 0px), whatever the props
    are. *)
Theorem first_render_transform_identity (props : LiquidGlassProps) :
  dynamicTransform props (LiquidGlass_initial_hooks props)
  = (scale_uniform 1, mkPoint 0 0).
Proof.
  unfold dynamicTransform, calculateDirectionalScale. simpl.
  rewrite !orb_true_r. reflexivity.
Qed.

(** Without a click handler, pressing changes nothing in the composed
    transform. *)
Theorem press_without_onClick_no_effect
  (props : LiquidGlassProps) (hooks : LiquidGlassHooks) :
  lg_onClick props = None ->
  dynamicTransform props (set_isActive true hooks)
  = dynamicTransform props (set_isActive false hooks).
Proof.
  intros Hnone. unfold dynamicTransform. rewrite Hnone. reflexivity.
Qed.

(** A mouse move over a tracked container with positive width and height
    records the client position as is, and the offset on each axis is the
    position within the container as a percentage less 50; with the pointer
    within the container it lies between -50 and 50.  Nothing else in the
    hooks changes. *)
Theorem handleMouseMove_offset
  (mouseContainer : option DOMRect) (e : MouseEvent)
  (hooks : LiquidGlassHooks) (rect : DOMRect) :
  tracked_container mouseContainer hooks = Some rect ->
  0 < rect_width rect -> 0 < rect_height rect ->
  let hooks' := handleMouseMove mouseContainer e hooks in
  internalGlobalMousePos hooks' = mkPoint (clientX e) (clientY e)
  /\ pt_x (internalMouseOffset hooks')
     = (clientX e - rect_left rect) / rect_width rect * 100 - 50
  /\ pt_y (internalMouseOffset hooks')
     = (clientY e - rect_top rect) / rect_height rect * 100 - 50
  /\ (rect_left rect <= clientX e <= rect_left rect + rect_width rect ->
      -50 <= pt_x (internalMouseOffset hooks') <= 50)
  /\ (rect_top rect <= clientY e <= rect_top rect + rect_height rect ->
      -50 <= pt_y (internalMouseOffset hooks') <= 50)
  /\ isHovered hooks' = isHovered hooks
  /\ isActive hooks' = isActive hooks
  /\ glassSize_state hooks' = glassSize_state hooks
  /\ glassRef_current hooks' = glassRef_current hooks.
Proof.
  intros Hrect Hw Hh hooks'. unfold hooks', handleMouseMove.
  rewrite Hrect. simpl.
  assert (Hx : (clientX e - (rect_left rect + rect_width rect / 2))
               / rect_width rect * 100
               = (clientX e - rect_left rect) / rect_width rect * 100 - 50)
    by (field; lra).
  assert (Hy : (clientY e - (rect_top rect + rect_height rect / 2))
               / rect_height rect * 100
               = (clientY e - rect_top rect) / rect_height rect * 100 - 50)
    by (field; lra).
  rewrite Hx, Hy.
  split; [reflexivity |]. split; [reflexivity |]. split; [reflexivity |].
  split; [| split; [| repeat split]].
  - intros [Hlo Hhi].
    assert (H0 : 0 <= (clientX e - rect_left rect) / rect_width rect)
      by (apply Rmult_le_pos; [lra | left; apply Rinv_0_lt_compat; lra]).
    assert (H1 : (clientX e - rect_left rect) / rect_width rect <= 1).
    { apply (Rmult_le_reg_r (rect_width rect)); [lra |].
      unfold Rdiv. rewrite Rmult_assoc, Rinv_l by lra. lra. }
    lra.
  - intros [Hlo Hhi].
    assert (H0 : 0 <= (clientY e - rect_top rect) / rect_height rect)
      by (apply Rmult_le_pos; [lra | left; apply Rinv_0_lt_compat; lra]).
    assert (H1 : (clientY e - rect_top rect) / rect_height rect <= 1).
    { apply (Rmult_le_reg_r (rect_height rect)); [lra |].
      unfold Rdiv. rewrite Rmult_assoc, Rinv_l by lra. lra. }
    lra.
Qed.

(** With a pointer position supplied by the caller, no mouse move changes
    the composed transform; with both the position and the offset supplied,
    or with no element to track, a mouse move changes nothing at all. *)
Theorem external_pointer_ignores_mousemove
  (props : LiquidGlassProps) (mouseContainer : option DOMRect)
  (e : MouseEvent) (hooks : LiquidGlassHooks) :
  (is_some (lg_globalMousePos props) = true ->
   dynamicTransform props (on_mousemove props mouseContainer e hooks)
   = dynamicTransform props hooks)
  /\ (is_some (lg_globalMousePos props) = true ->
      is_some (lg_mouseOffset props) = true ->
      on_mousemove props mouseContainer e hooks = hooks)
  /\ (tracked_container mouseContainer hooks = None ->
      on_mousemove props mouseContainer e hooks = hooks).
Proof.
  repeat split.
  - intros Hpos. unfold on_mousemove.
    destruct (mouse_tracking_registered props mouseContainer hooks);
      [| reflexivity].
    unfold handleMouseMove.
    destruct (tracked_container mouseContainer hooks) as [rect |];
      [| reflexivity].
    unfold dynamicTransform. simpl.
    destruct (lg_globalMousePos props); [reflexivity | discriminate].
  - intros Hpos Hoff. unfold on_mousemove, mouse_tracking_registered.
    rewrite Hpos, Hoff. reflexivity.
  - intros Hnone. unfold on_mousemove, handleMouseMove.
    rewrite Hnone.
    destruct (mouse_tracking_registered props mouseContainer hooks);
      reflexivity.
Qed.


(** * Properties of the glass size *)

(** Measuring without an external size sets the state to the width and
    height of the [.glass] element whatever the previous state was, and
    measuring again changes nothing. *)
Theorem measureGlassSize_measures
  (externalGlassSize : option Size) (glassEl : option DOMRect) (prev : Size) :
  (forall rect, externalGlassSize = None -> glassEl = Some rect ->
     measureGlassSize externalGlassSize glassEl prev
     = mkSize (rect_width rect) (rect_height rect))
  /\ measureGlassSize externalGlassSize glassEl
       (measureGlassSize externalGlassSize glassEl prev)
     = measureGlassSize externalGlassSize glassEl prev.
Proof.
  assert (Hmeasured : forall rect p,
             measureGlassSize None (Some rect) p
             = mkSize (rect_width rect) (rect_height rect)).
  { intros rect [w h]. unfold measureGlassSize. simpl.
    destruct (Req_dec_T w (rect_width rect)) as [-> | _]; [| reflexivity].
    destruct (Req_dec_T h (rect_height rect)) as [-> | _]; reflexivity. }
  split.
  - intros rect -> ->. apply Hmeasured.
  - destruct externalGlassSize as [s |]; [reflexivity |].
    destruct glassEl as [rect |]; [| reflexivity].
    rewrite !Hmeasured. reflexivity.
Qed.

(** With an external glass size, measuring never changes the state, the
    effect sets the state to the external size, and the filter built from
    that state has the external width and height. *)
Theorem external_glassSize_wins
  (props : LiquidGlassProps) (hooks : LiquidGlassHooks)
  (container : GlassContainerHooks) (size : Size)
  (window_defined : bool) (glassEl : option DOMRect) :
  lg_glassSize props = Some size ->
  measureGlassSize (lg_glassSize props) glassEl (glassSize_state hooks)
  = glassSize_state hooks
  /\ glassSize_effect (lg_glassSize props) window_defined glassEl
       (glassSize_state hooks) = size
  /\ glassSize_state (LiquidGlass_initial_hooks props) = size
  /\ forall hovered active pos offset glassRef,
       let hooks' :=
         mkLiquidGlassHooks hovered active
           (glassSize_effect (lg_glassSize props) window_defined glassEl
              (glassSize_state hooks))
           pos offset glassRef in
       gf_width (LiquidGlass_GlassFilter_props props hooks' container)
       = size_width size
       /\ gf_height (LiquidGlass_GlassFilter_props props hooks' container)
          = size_height size.
Proof.
  intros Hext. rewrite Hext. simpl.
  split; [reflexivity |]. split; [reflexivity |].
  split; [unfold LiquidGlass_initial_hooks; rewrite Hext; reflexivity |].
  intros hovered active pos offset glassRef. split; reflexivity.
Qed.

(** * Properties of the overlay borders *)

(** The two border gradients have the same angle and the same stop
    positions, and the positions 0, p1, p2, 100 are in order exactly when
    the vertical mouse offset is between -140 and 190; p1 is never below 10
    and p2 never above 90. *)
Theorem border_stops_ordered (mouseOffset : Point) :
  let screen := screen_border_background mouseOffset in
  let overlay := overlay_border_background mouseOffset in
  linear_angle overlay = linear_angle screen
  /\ map stop_position (linear_stops overlay)
     = map stop_position (linear_stops screen)
  /\ (exists p1 p2,
        map stop_position (linear_stops screen) = [0; p1; p2; 100]
        /\ 10 <= p1 /\ p2 <= 90)
  /\ (nondecreasing (map stop_position (linear_stops screen))
      <-> -140 <= pt_y mouseOffset <= 190).
Proof.
  simpl. split; [reflexivity |]. split; [reflexivity |]. split.
  - eexists. eexists. split; [reflexivity |].
    split; [apply Rmax_l | apply Rmin_l].
  - unfold Rmax, Rmin.
    destruct (Rle_dec 10 (33 + pt_y mouseOffset * 0.3));
      destruct (Rle_dec 90 (66 + pt_y mouseOffset * 0.4));
      split; intros H; repeat split; try lra;
      destruct H as (H1 & H2 & H3 & _); lra.
Qed.

(** The opacities of the stops of the "screen" border are all between 0
    and 1 exactly when the horizontal mouse offset is at most 50 in absolute
    value, those of the "overlay" border exactly when three times its
    absolute value is at most 100. *)
Theorem border_alphas_in_range (mouseOffset : Point) :
  (Forall (fun a => 0 <= a <= 1)
     (map stop_alpha (linear_stops (screen_border_background mouseOffset)))
   <-> Rabs (pt_x mouseOffset) <= 50)
  /\ (Forall (fun a => 0 <= a <= 1)
        (map stop_alpha
           (linear_stops (overlay_border_background mouseOffset)))
      <-> 3 * Rabs (pt_x mouseOffset) <= 100).
Proof.
  pose proof (Rabs_pos (pt_x mouseOffset)) as Hpos. simpl.
  split; split.
  - intros H. inversion_clear H as [| ? ? _ H1].
    inversion_clear H1 as [| ? ? _ H2].
    inversion_clear H2 as [| ? ? H3 _]. lra.
  - intros H. repeat (apply Forall_cons; [lra |]). apply Forall_nil.
  - intros H. inversion_clear H as [| ? ? _ H1].
    inversion_clear H1 as [| ? ? _ H2].
    inversion_clear H2 as [| ? ? H3 _]. lra.
  - intros H. repeat (apply Forall_cons; [lra |]). apply Forall_nil.
Qed.

(** * Further properties of the filter graph *)

(** For a known mode, every stage of the filter reads only SourceGraphic or
    the result of an earlier stage, no two stages write the same name, every
    named result is read by a later stage, and the last stage is the
    composite of the edge aberration over the clean centre. *)
Theorem GlassFilter_graph_well_formed (props : GlassFilterProps) :
  known_mode (gf_mode props) ->
  exists svg,
    GlassFilter props = Return svg /\
    reads_defined ["SourceGraphic"] (filter_primitives (svg_filter svg))
    = true /\
    results_used (filter_primitives (svg_filter svg)) = true /\
    last (filter_primitives (svg_filter svg)) (feOffset "" 0 0 "")
    = feComposite "EDGE_ABERRATION" "CENTER_CLEAN" op_over None.
Proof.
  intros Hmode.
  destruct (getMap_known (gf_mode props) (gf_shaderMapUrl props) Hmode)
    as [href Hhref].
  unfold GlassFilter. rewrite Hhref. unfold bind.
  eexists. split; [reflexivity |].
  split; [reflexivity |]. split; reflexivity.
Qed.

(** For a known mode and an aberration intensity that is not negative, the
    three displacement scales are equally spaced, s * a * 0.05 apart; in the
    static modes their magnitudes grow from red to blue, and in shader mode,
    up to intensity 10, they shrink from red to blue. *)
Theorem displacement_scales_spread
  (id : string) (s a width height : R) (mode : string)
  (url : option string) :
  known_mode mode -> 0 <= a ->
  exists svg,
    GlassFilter (mkGlassFilterProps id s a width height mode url)
    = Return svg /\
    exists red green blue,
    map (fun st => snd (fst (fst st)))
        (displacement_stages (filter_primitives (svg_filter svg)))
    = [red; green; blue] /\
    red - green = s * a * 0.05 /\
    green - blue = s * a * 0.05 /\
    (static_mode mode -> Rabs red <= Rabs green <= Rabs blue) /\
    (mode = "shader" -> a <= 10 -> Rabs blue <= Rabs green <= Rabs red).
Proof.
  intros Hmode Ha.
  assert (Hstatic : forall sign, sign = -1 ->
            Rabs (s * sign) <= Rabs (s * (sign - a * 0.05))
            <= Rabs (s * (sign - a * 0.1))).
  { intros sign ->. rewrite !Rabs_mult.
    pose proof (Rabs_pos s).
    rewrite (Rabs_left (-1)), (Rabs_left (-1 - a * 0.05)),
      (Rabs_left (-1 - a * 0.1)) by lra.
    split; apply Rmult_le_compat_l; lra. }
  assert (Hshader : forall sign, sign = 1 -> a <= 10 ->
            Rabs (s * (sign - a * 0.1)) <= Rabs (s * (sign - a * 0.05))
            <= Rabs (s * sign)).
  { intros sign -> Hle. rewrite !Rabs_mult.
    pose proof (Rabs_pos s).
    rewrite (Rabs_pos_eq 1), (Rabs_pos_eq (1 - a * 0.05)),
      (Rabs_pos_eq (1 - a * 0.1)) by lra.
    split; apply Rmult_le_compat_l; lra. }
  destruct Hmode as [[-> | [-> | ->]] | ->]; glass_filter_literal;
    simpl; do 3 eexists; (split; [reflexivity |]);
    (split; [lra |]); (split; [lra |]); split.
  all: try (intros _; apply Hstatic; reflexivity).
  all: try (intros H; discriminate H).
  all: try (intros _ Hle; apply Hshader; [reflexivity | exact Hle]).
  all: intros [H | [H | H]]; discriminate H.
Qed.

(** For a known mode, the table of the edge mask never decreases exactly
    when the aberration intensity is between 0 and 20. *)
Theorem edge_mask_table_monotone
  (id : string) (s a width height : R) (mode : string)
  (url : option string) :
  known_mode mode ->
  exists svg,
    GlassFilter (mkGlassFilterProps id s a width height mode url)
    = Return svg /\
    exists table_values,
      transfer_table "EDGE_MASK" (filter_primitives (svg_filter svg))
      = Some (discrete, table_values) /\
      (nondecreasing table_values <-> 0 <= a <= 20).
Proof.
  intros [[-> | [-> | ->]] | ->]; glass_filter_literal;
    eexists; (split; [reflexivity |]); simpl; split.
  all: try (intros (H1 & H2 & _); lra).
  all: intros H; repeat split; lra.
Qed.

(** For a known mode, the standard deviation of the blur is never below
    0.1: it is 0.5 - a * 0.1 up to intensity 4 and 0.1 from there on, so at
    most 0.5 for an intensity that is not negative. *)
Theorem blur_deviation_range
  (id : string) (s a width height : R) (mode : string)
  (url : option string) :
  known_mode mode ->
  exists svg,
    GlassFilter (mkGlassFilterProps id s a width height mode url)
    = Return svg /\
    exists deviation,
      blur_deviations (filter_primitives (svg_filter svg)) = [deviation] /\
      0.1 <= deviation /\
      (a <= 4 -> deviation = 0.5 - a * 0.1) /\
      (4 <= a -> deviation = 0.1) /\
      (0 <= a -> deviation <= 0.5).
Proof.
  intros [[-> | [-> | ->]] | ->]; glass_filter_literal;
    eexists; (split; [reflexivity |]); cbn [gf_aberrationIntensity];
    unfold Rmax; destruct (Rle_dec 0.1 (0.5 - a * 0.1));
    repeat split; intros; lra.
Qed.

(** * Properties of the components *)

(** The filter of a [LiquidGlass] is built exactly when the mode, "standard"
    if none is passed, is one of the four known ones; otherwise rendering
    throws the error "Invalid mode: <mode>". *)
Theorem LiquidGlass_filter_returns_iff
  (props : LiquidGlassProps) (hooks : LiquidGlassHooks)
  (container : GlassContainerHooks) :
  let mode := default "standard" (lg_mode props) in
  ((exists svg, LiquidGlass_filter props hooks container = Return svg)
   <-> known_mode mode)
  /\ (~ known_mode mode ->
      LiquidGlass_filter props hooks container
      = Throw (mkError ("Invalid mode: " ++ mode)))
  /\ (lg_mode props = None ->
      exists svg, LiquidGlass_filter props hooks container = Return svg).
Proof.
  intros mode.
  assert (Hret : known_mode mode ->
            exists svg, LiquidGlass_filter props hooks container = Return svg).
  { intros Hmode.
    destruct (GlassFilter_returns
                (LiquidGlass_GlassFilter_props props hooks container) Hmode)
      as (href & svg & _ & Hsvg & _).
    exists svg. exact Hsvg. }
  assert (Hthrow : ~ known_mode mode ->
            LiquidGlass_filter props hooks container
            = Throw (mkError ("Invalid mode: " ++ mode))).
  { intros Hmode.
    apply (GlassFilter_unknown
             (LiquidGlass_GlassFilter_props props hooks container)).
    exact Hmode. }
  split; [split |]; [| exact Hret | split; [exact Hthrow |]].
  - intros [svg Hsvg].
    destruct (string_dec mode "standard") as [-> | n1];
      [left; left; reflexivity |].
    destruct (string_dec mode "polar") as [-> | n2];
      [left; right; left; reflexivity |].
    destruct (string_dec mode "prominent") as [-> | n3];
      [left; right; right; reflexivity |].
    destruct (string_dec mode "shader") as [-> | n4];
      [right; reflexivity |].
    rewrite Hthrow in Hsvg; [discriminate |].
    intros [[H | [H | H]] | H]; contradiction.
  - intros Hnone. apply Hret. unfold mode. rewrite Hnone.
    left; left; reflexivity.
Qed.

(** Through [LiquidGlass] and [GlassContainer], for a known mode, the red,
    green and blue displacement scales are those of the configured scale (70
    by default), halved over light, with aberration intensity 2 by default,
    and the filter region is that of the glass size in the state. *)
Theorem LiquidGlass_filter_end_to_end
  (props : LiquidGlassProps) (hooks : LiquidGlassHooks)
  (container : GlassContainerHooks) (sign : R) :
  let mode := default "standard" (lg_mode props) in
  let a := default 2 (lg_aberrationIntensity props) in
  let s :=
    if default false (lg_overLight props)
    then default 70 (lg_displacementScale props) / 2
    else default 70 (lg_displacementScale props) in
  (mode = "shader" /\ sign = 1) \/ (static_mode mode /\ sign = -1) ->
  exists svg,
    LiquidGlass_filter props hooks container = Return svg /\
    filter_id (svg_filter svg) = filterId container /\
    map (fun st => snd (fst (fst st)))
        (displacement_stages (filter_primitives (svg_filter svg)))
    = [ s * sign; s * (sign - a * 0.05); s * (sign - a * 0.1) ] /\
    filter_x (svg_filter svg) = - 0.1 * size_width (glassSize_state hooks) /\
    filter_y (svg_filter svg) = - 0.1 * size_height (glassSize_state hooks) /\
    filter_width (svg_filter svg)
    = 1.2 * size_width (glassSize_state hooks) /\
    filter_height (svg_filter svg)
    = 1.2 * size_height (glassSize_state hooks).
Proof.
  intros mode a s Hmode.
  assert (Hs : gf_displacementScale
                 (LiquidGlass_GlassFilter_props props hooks container) = s).
  { unfold s. simpl. destruct (default false (lg_overLight props)); lra. }
  unfold LiquidGlass_filter, GlassContainer_filter.
  change (GlassContainer_GlassFilter_props
            (LiquidGlass_GlassContainer_props props hooks) container)
    with (LiquidGlass_GlassFilter_props props hooks container).
  unfold GlassFilter. cbv zeta.
  rewrite Hs. simpl gf_mode. simpl gf_shaderMapUrl.
  simpl gf_aberrationIntensity. simpl gf_width. simpl gf_height. simpl gf_id.
  fold mode. fold a.
  destruct Hmode as [[Hm ->] | [[Hm | [Hm | Hm]] ->]]; rewrite Hm.
  all: first [ rewrite getMap_standard | rewrite getMap_polar
             | rewrite getMap_prominent | rewrite getMap_shader ].
  all: unfold bind; eexists; split; [reflexivity |].
  all: simpl; repeat split; lra.
Qed.

(** In shader mode, before the effect has run the image stage refers to the
    standard asset, and after it to the generated map, or to the standard
    asset when the generator returned the empty string. *)
Theorem shader_effect_then_filter
  (props : GlassContainerProps) (id : string) :
  gc_mode props = Some "shader" ->
  let size :=
    default {| size_width := 270; size_height := 69 |} (gc_glassSize props) in
  let generated := updateShader (size_width size) (size_height size) in
  let before := GlassContainer_initial_hooks id in
  let after := GlassContainer_shader_effect props before in
  (exists svg,
      GlassContainer_filter props before = Return svg /\
      hd_error (filter_primitives (svg_filter svg))
      = Some (feImage "DISPLACEMENT_MAP" displacementMap "xMidYMid slice"))
  /\ (exists svg,
         GlassContainer_filter props after = Return svg /\
         filter_id (svg_filter svg) = id /\
         hd_error (filter_primitives (svg_filter svg))
         = Some (feImage "DISPLACEMENT_MAP"
                   (if (generated =? "")%string
                    then displacementMap else generated)
                   "xMidYMid slice")).
Proof.
  intros Hmode size generated before after.
  unfold after, before, GlassContainer_shader_effect, GlassContainer_filter,
    GlassFilter.
  simpl. rewrite Hmode. simpl. split.
  - eexists. split; reflexivity.
  - eexists. split; [reflexivity |]. split; [reflexivity |].
    simpl. unfold truthy_string, generateShaderDisplacementMap.
    fold size. fold generated.
    destruct (generated =? "")%string; reflexivity.
Qed.

(** In a static mode the shader effect leaves the hooks alone, and whatever
    shader map is left in the state, the filter is the same. *)
Theorem static_mode_ignores_shader_state
  (props : GlassContainerProps) (id url1 url2 : string) :
  static_mode (default "standard" (gc_mode props)) ->
  GlassContainer_shader_effect props (mkGlassContainerHooks id url1)
  = mkGlassContainerHooks id url1
  /\ GlassContainer_filter props (mkGlassContainerHooks id url1)
     = GlassContainer_filter props (mkGlassContainerHooks id url2).
Proof.
  intros Hmode.
  unfold GlassContainer_shader_effect, GlassContainer_filter, GlassFilter.
  simpl.
  destruct Hmode as [-> | [-> | ->]]; split; reflexivity.
Qed.

End DisplacementMaps.

(** * The theorems at concrete inputs *)

(** C1 at the defaults of [LiquidGlass] in shader mode. *)
Lemma GlassFilter_displacement_scales_shader_70_2 :
  (("shader" = "shader" /\ 1 = 1) \/ (static_mode "shader" /\ 1 = -1))
  /\ exists svg,
       GlassFilter "data:standard" "data:polar" "data:prominent"
         (mkGlassFilterProps ":r0:" 70 2 270 69 "shader" (Some "data:shader"))
       = Return svg /\
       displacement_stages (filter_primitives (svg_filter svg))
       = [ ("RED_DISPLACED", 70 * 1, chR, chB);
           ("GREEN_DISPLACED", 70 * (1 - 2 * 0.05), chR, chB);
           ("BLUE_DISPLACED", 70 * (1 - 2 * 0.1), chR, chB) ].
Proof.
  assert (Hmode : ("shader" = "shader" /\ 1 = 1)
                  \/ (static_mode "shader" /\ 1 = -1))
    by (left; split; reflexivity).
  split; [exact Hmode |].
  exact (GlassFilter_displacement_scales
           "data:standard" "data:polar" "data:prominent"
           ":r0:" 70 2 270 69 "shader" (Some "data:shader") 1 Hmode).
Defined.

(** C2 with the pointer 400 to the right of the centre of the default box,
    265 from its edge. *)
Lemma outside_activation_zone_identity_400_right :
  edgeDistance (mkPoint 1535 1034.5) (mkDOMRect 1000 1000 270 69)
    (mkSize 270 69) > 200
  /\ calculateDirectionalScale (mkPoint 1535 1034.5)
       (Some (mkDOMRect 1000 1000 270 69)) (mkSize 270 69) 0.15
     = scale_uniform 1
  /\ scale_factors
       (calculateDirectionalScale (mkPoint 1535 1034.5)
          (Some (mkDOMRect 1000 1000 270 69)) (mkSize 270 69) 0.15)
     = (1, 1)
  /\ calculateElasticTranslation (mkPoint 1535 1034.5)
       (Some (mkDOMRect 1000 1000 270 69)) (mkSize 270 69) 0.15
     = mkPoint 0 0.
Proof.
  assert (Hfar : edgeDistance (mkPoint 1535 1034.5)
                   (mkDOMRect 1000 1000 270 69) (mkSize 270 69) > 200).
  { rewrite edgeDistance_right_of_box; simpl; lra. }
  split; [exact Hfar |].
  exact (outside_activation_zone_identity (mkPoint 1535 1034.5)
           (mkDOMRect 1000 1000 270 69) (mkSize 270 69) 0.15 Hfar).
Defined.

(** C4 at the mode "glass". *)
Lemma getMap_invalid_mode_glass :
  ~ known_mode "glass"
  /\ getMap "data:standard" "data:polar" "data:prominent" "glass" None
     = Throw (mkError "Invalid mode: glass").
Proof.
  assert (Hmode : ~ known_mode "glass")
    by (intros [[H | [H | H]] | H]; discriminate H).
  split; [exact Hmode |].
  exact (proj2 (proj2 (proj2
           (getMap_static_assets_and_invalid_mode
              "data:standard" "data:polar" "data:prominent")))
           "glass" None Hmode).
Defined.

(** C5 with the state [shaderMapUrl] still empty. *)
Lemma getMap_shader_fallback_empty_url :
  "data:standard" <> ""
  /\ getMap "data:standard" "data:polar" "data:prominent" "shader" (Some "")
     = Return "data:standard".
Proof.
  assert (Hasset : "data:standard" <> "") by discriminate.
  split; [exact Hasset |].
  exact (proj1 (proj2 (proj2
           (getMap_shader_fallback
              "data:standard" "data:polar" "data:prominent" Hasset)))).
Defined.

(** C6 at aberration intensity 2 in standard mode. *)
Lemma GlassFilter_edge_mask_and_blur_standard_2 :
  known_mode "standard"
  /\ exists svg table_values deviation,
       GlassFilter "data:standard" "data:polar" "data:prominent"
         (mkGlassFilterProps ":r0:" 70 2 270 69 "standard" (Some ""))
       = Return svg /\
       transfer_table "EDGE_MASK" (filter_primitives (svg_filter svg))
       = Some (discrete, table_values) /\
       blur_deviations (filter_primitives (svg_filter svg)) = [deviation] /\
       table_values = [0; 2 * 0.05; 1] /\
       deviation = Rmax 0.1 (0.5 - 2 * 0.1) /\
       (2 = 2 -> table_values = [0; 0.1; 1] /\ deviation = 0.3) /\
       (2 = 0 -> table_values = [0; 0; 1]).
Proof.
  assert (Hmode : known_mode "standard") by (left; left; reflexivity).
  split; [exact Hmode |].
  exact (GlassFilter_edge_mask_and_blur
           "data:standard" "data:polar" "data:prominent"
           ":r0:" 70 2 270 69 "standard" (Some "") Hmode).
Defined.

(** C7 at the default box in polar mode. *)
Lemma GlassFilter_region_polar_270_69 :
  known_mode "polar"
  /\ exists svg,
       GlassFilter "data:standard" "data:polar" "data:prominent"
         (mkGlassFilterProps ":r0:" 70 2 270 69 "polar" (Some ""))
       = Return svg /\
       svg_width svg = 270 /\
       svg_height svg = 69 /\
       filter_x (svg_filter svg) = -0.1 * 270 /\
       filter_y (svg_filter svg) = -0.1 * 69 /\
       filter_width (svg_filter svg) = 1.2 * 270 /\
       filter_height (svg_filter svg) = 1.2 * 69 /\
       0 - filter_x (svg_filter svg) = 0.1 * 270 /\
       filter_x (svg_filter svg) + filter_width (svg_filter svg) - 270
       = 0.1 * 270 /\
       0 - filter_y (svg_filter svg) = 0.1 * 69 /\
       filter_y (svg_filter svg) + filter_height (svg_filter svg) - 69
       = 0.1 * 69.
Proof.
  assert (Hmode : known_mode "polar") by (left; right; left; reflexivity).
  split; [exact Hmode |].
  exact (GlassFilter_region
           "data:standard" "data:polar" "data:prominent"
           ":r0:" 70 2 270 69 "polar" (Some "") Hmode).
Defined.

(** C8 for a clickable glass pressed with the pointer 300 to the right of
    its centre. *)
Lemma pressed_scale_override_clickable :
  lg_onClick clickable_props = Some (handler 0)
  /\ fst (dynamicTransform clickable_props
            (mkLiquidGlassHooks true true (mkSize 270 69)
               (mkPoint 1435 1034.5) (mkPoint 111 0)
               (Some (mkDOMRect 1000 1000 270 69))))
     = scale_uniform 0.96
  /\ snd (dynamicTransform clickable_props
            (mkLiquidGlassHooks true true (mkSize 270 69)
               (mkPoint 1435 1034.5) (mkPoint 111 0)
               (Some (mkDOMRect 1000 1000 270 69))))
     = snd (dynamicTransform clickable_props
              (mkLiquidGlassHooks true false (mkSize 270 69)
                 (mkPoint 1435 1034.5) (mkPoint 111 0)
                 (Some (mkDOMRect 1000 1000 270 69)))).
Proof.
  assert (Hclick : lg_onClick clickable_props = Some (handler 0))
    by reflexivity.
  split; [exact Hclick |].
  pose proof (pressed_scale_override clickable_props (handler 0) true
                (mkSize 270 69) (mkPoint 1435 1034.5) (mkPoint 111 0)
                (Some (mkDOMRect 1000 1000 270 69)) Hclick) as Hpressed.
  split; [exact (proj1 Hpressed) | exact (proj2 (proj2 Hpressed))].
Defined.

(** C9 with the pointer on the left edge of the window, 10 from the box. *)
Lemma zero_coordinate_is_no_pointer_left_edge :
  (pt_x (mkPoint 0 44.5) = 0 \/ pt_y (mkPoint 0 44.5) = 0)
  /\ calculateDirectionalScale (mkPoint 0 44.5)
       (Some (mkDOMRect 10 10 270 69)) (mkSize 270 69) 0.15
     = scale_uniform 1
  /\ scale_factors
       (calculateDirectionalScale (mkPoint 0 44.5)
          (Some (mkDOMRect 10 10 270 69)) (mkSize 270 69) 0.15)
     = (1, 1)
  /\ calculateFadeInFactor (mkPoint 0 44.5)
       (Some (mkDOMRect 10 10 270 69)) (mkSize 270 69) = 0.
Proof.
  assert (Hzero : pt_x (mkPoint 0 44.5) = 0 \/ pt_y (mkPoint 0 44.5) = 0)
    by (left; reflexivity).
  split; [exact Hzero |].
  exact (zero_coordinate_is_no_pointer (mkPoint 0 44.5)
           (Some (mkDOMRect 10 10 270 69)) (mkSize 270 69) 0.15 Hzero).
Defined.

(** * The further properties at concrete inputs *)

Lemma pointer_inside_box_sample :
  pt_x (mkPoint 1200 1040) <> 0
  /\ pt_y (mkPoint 1200 1040) <> 0
  /\ edgeDistance (mkPoint 1200 1040) sample_rect sample_size = 0
  /\ calculateFadeInFactor (mkPoint 1200 1040) (Some sample_rect) sample_size
     = 1.
Proof.
  assert (Hx : pt_x (mkPoint 1200 1040) <> 0) by (simpl; lra).
  assert (Hy : pt_y (mkPoint 1200 1040) <> 0) by (simpl; lra).
  split; [exact Hx |]. split; [exact Hy |].
  pose proof (pointer_inside_box (mkPoint 1200 1040) sample_rect sample_size
                0.15 Hx Hy) as Hin.
  assert (Hdx : Rabs (pt_x (mkPoint 1200 1040)
                      - (rect_left sample_rect + rect_width sample_rect / 2))
                <= size_width sample_size / 2)
    by (apply Rabs_le; simpl; lra).
  assert (Hdy : Rabs (pt_y (mkPoint 1200 1040)
                      - (rect_top sample_rect + rect_height sample_rect / 2))
                <= size_height sample_size / 2)
    by (apply Rabs_le; simpl; lra).
  destruct (Hin Hdx Hdy) as (Hedge & Hfade & _).
  split; [exact Hedge | exact Hfade].
Defined.

Lemma fade_zero_identity_at_200 :
  calculateFadeInFactor (mkPoint 1470 1034.5) (Some sample_rect) sample_size
  = 0
  /\ scale_factors
       (calculateDirectionalScale (mkPoint 1470 1034.5) (Some sample_rect)
          sample_size 0.15)
     = (1, 1)
  /\ calculateElasticTranslation (mkPoint 1470 1034.5) (Some sample_rect)
       sample_size 0.15
     = mkPoint 0 0.
Proof.
  assert (Hfade : calculateFadeInFactor (mkPoint 1470 1034.5)
                    (Some sample_rect) sample_size = 0).
  { rewrite calculateFadeInFactor_unguarded by (simpl; lra).
    rewrite edgeDistance_right_of_box by (simpl; lra). simpl.
    destruct (Rgt_dec _ 200); lra. }
  split; [exact Hfade |].
  exact (fade_zero_identity (mkPoint 1470 1034.5) (Some sample_rect)
           sample_size 0.15 Hfade).
Defined.

Lemma pointer_at_centre_identity_sample :
  pt_x (mkPoint 1135 1034.5)
  = rect_left sample_rect + rect_width sample_rect / 2
  /\ pt_y (mkPoint 1135 1034.5)
     = rect_top sample_rect + rect_height sample_rect / 2
  /\ calculateDirectionalScale (mkPoint 1135 1034.5) (Some sample_rect)
       sample_size 0.15
     = scale_uniform 1
  /\ calculateElasticTranslation (mkPoint 1135 1034.5) (Some sample_rect)
       sample_size 0.15
     = mkPoint 0 0.
Proof.
  assert (Hx : pt_x (mkPoint 1135 1034.5)
               = rect_left sample_rect + rect_width sample_rect / 2)
    by (simpl; lra).
  assert (Hy : pt_y (mkPoint 1135 1034.5)
               = rect_top sample_rect + rect_height sample_rect / 2)
    by (simpl; lra).
  split; [exact Hx |]. split; [exact Hy |].
  exact (pointer_at_centre_identity (mkPoint 1135 1034.5) sample_rect
           sample_size 0.15 Hx Hy).
Defined.

Lemma directional_scale_bounds_sample :
  0 <= 0.15
  /\ Rmax 0.8 (1 - 0.15 * 0.15)
     <= fst (scale_factors
               (calculateDirectionalScale (mkPoint 1435 1034.5)
                  (Some sample_rect) sample_size 0.15))
     <= 1 + 0.3 * 0.15.
Proof.
  assert (He : 0 <= 0.15) by lra.
  split; [exact He |].
  exact (proj1 (directional_scale_bounds (mkPoint 1435 1034.5)
                  (Some sample_rect) sample_size 0.15 He)).
Defined.

Lemma directional_scale_follows_pointer_sample :
  0 <= 0.15
  /\ Rabs (pt_y (mkPoint 1435 1034.5)
           - (rect_top sample_rect + rect_height sample_rect / 2))
     <= Rabs (pt_x (mkPoint 1435 1034.5)
              - (rect_left sample_rect + rect_width sample_rect / 2))
  /\ snd (scale_factors
            (calculateDirectionalScale (mkPoint 1435 1034.5)
               (Some sample_rect) sample_size 0.15))
     <= fst (scale_factors
               (calculateDirectionalScale (mkPoint 1435 1034.5)
                  (Some sample_rect) sample_size 0.15)).
Proof.
  assert (He : 0 <= 0.15) by lra.
  assert (Hfar : Rabs (pt_y (mkPoint 1435 1034.5)
                       - (rect_top sample_rect + rect_height sample_rect / 2))
                 <= Rabs (pt_x (mkPoint 1435 1034.5)
                          - (rect_left sample_rect
                             + rect_width sample_rect / 2))).
  { simpl. replace (1034.5 - (1000 + 69 / 2)) with 0 by lra.
    rewrite Rabs_R0. apply Rabs_pos. }
  split; [exact He |]. split; [exact Hfar |].
  exact (directional_scale_follows_pointer (mkPoint 1435 1034.5) sample_rect
           sample_size 0.15 He Hfar).
Defined.

Lemma elastic_translation_bound_sample :
  0 <= 0.15
  /\ 0 <= pt_x (calculateElasticTranslation (mkPoint 1435 1034.5)
                  (Some sample_rect) sample_size 0.15)
          * (pt_x (mkPoint 1435 1034.5)
             - (rect_left sample_rect + rect_width sample_rect / 2)).
Proof.
  assert (He : 0 <= 0.15) by lra.
  split; [exact He |].
  exact (proj1 (proj2 (proj2
           (elastic_translation_bound (mkPoint 1435 1034.5) sample_rect
              sample_size 0.15)) He)).
Defined.

Lemma edgeDistance_is_distance_to_box_sample :
  0 <= size_width sample_size
  /\ 0 <= size_height sample_size
  /\ edgeDistance (mkPoint 1435 1034.5) sample_rect sample_size
     = distance_to_box (mkPoint 1435 1034.5) sample_rect sample_size.
Proof.
  assert (Hw : 0 <= size_width sample_size) by (simpl; lra).
  assert (Hh : 0 <= size_height sample_size) by (simpl; lra).
  split; [exact Hw |]. split; [exact Hh |].
  exact (edgeDistance_is_distance_to_box (mkPoint 1435 1034.5) sample_rect
           sample_size Hw Hh).
Defined.

Lemma handleMouseMove_offset_sample :
  tracked_container None sample_hooks = Some sample_rect
  /\ 0 < rect_width sample_rect
  /\ 0 < rect_height sample_rect
  /\ rect_left sample_rect <= clientX (mkMouseEvent 1200 1040)
     <= rect_left sample_rect + rect_width sample_rect
  /\ -50 <= pt_x (internalMouseOffset
                    (handleMouseMove None (mkMouseEvent 1200 1040)
                       sample_hooks)) <= 50.
Proof.
  assert (Hrect : tracked_container None sample_hooks = Some sample_rect)
    by reflexivity.
  assert (Hw : 0 < rect_width sample_rect) by (simpl; lra).
  assert (Hh : 0 < rect_height sample_rect) by (simpl; lra).
  assert (Hin : rect_left sample_rect <= clientX (mkMouseEvent 1200 1040)
                <= rect_left sample_rect + rect_width sample_rect)
    by (simpl; lra).
  split; [exact Hrect |]. split; [exact Hw |]. split; [exact Hh |].
  split; [exact Hin |].
  exact (proj1 (proj2 (proj2 (proj2
           (handleMouseMove_offset None (mkMouseEvent 1200 1040) sample_hooks
              sample_rect Hrect Hw Hh)))) Hin).
Defined.

Lemma external_pointer_ignores_mousemove_sample :
  is_some (lg_globalMousePos
             (sample_props None (Some (mkPoint 1435 1034.5)) None None))
  = true
  /\ dynamicTransform
       (sample_props None (Some (mkPoint 1435 1034.5)) None None)
       (on_mousemove
          (sample_props None (Some (mkPoint 1435 1034.5)) None None)
          None (mkMouseEvent 1200 1040) sample_hooks)
     = dynamicTransform
         (sample_props None (Some (mkPoint 1435 1034.5)) None None)
         sample_hooks.
Proof.
  assert (Hext : is_some
                   (lg_globalMousePos
                      (sample_props None (Some (mkPoint 1435 1034.5))
                         None None)) = true) by reflexivity.
  split; [exact Hext |].
  exact (proj1 (external_pointer_ignores_mousemove
                  (sample_props None (Some (mkPoint 1435 1034.5)) None None)
                  None (mkMouseEvent 1200 1040) sample_hooks) Hext).
Defined.


Lemma measureGlassSize_measures_sample :
  measureGlassSize None (Some (mkDOMRect 0 0 300 80)) sample_size
  = mkSize 300 80.
Proof.
  exact (proj1 (measureGlassSize_measures None (Some (mkDOMRect 0 0 300 80))
                  sample_size)
           (mkDOMRect 0 0 300 80) eq_refl eq_refl).
Defined.

Lemma external_glassSize_wins_sample :
  lg_glassSize (sample_props None None None (Some (mkSize 400 100)))
  = Some (mkSize 400 100)
  /\ glassSize_effect
       (lg_glassSize (sample_props None None None (Some (mkSize 400 100))))
       true (Some (mkDOMRect 0 0 300 80)) (glassSize_state sample_hooks)
     = mkSize 400 100.
Proof.
  assert (Hext : lg_glassSize
                   (sample_props None None None (Some (mkSize 400 100)))
                 = Some (mkSize 400 100)) by reflexivity.
  split; [exact Hext |].
  exact (proj1 (proj2
           (external_glassSize_wins
              (sample_props None None None (Some (mkSize 400 100)))
              sample_hooks (mkGlassContainerHooks ":r0:" "")
              (mkSize 400 100) true (Some (mkDOMRect 0 0 300 80)) Hext))).
Defined.

Lemma border_stops_ordered_sample :
  -140 <= pt_y (mkPoint 10 20) <= 190
  /\ nondecreasing
       (map stop_position
          (linear_stops (screen_border_background (mkPoint 10 20)))).
Proof.
  assert (Hy : -140 <= pt_y (mkPoint 10 20) <= 190) by (simpl; lra).
  split; [exact Hy |].
  exact (proj2 (proj2 (proj2 (proj2
           (border_stops_ordered (mkPoint 10 20))))) Hy).
Defined.

Lemma border_alphas_in_range_sample :
  Rabs (pt_x (mkPoint 10 20)) <= 50
  /\ Forall (fun a => 0 <= a <= 1)
       (map stop_alpha
          (linear_stops (screen_border_background (mkPoint 10 20)))).
Proof.
  assert (Hx : Rabs (pt_x (mkPoint 10 20)) <= 50)
    by (apply Rabs_le; simpl; lra).
  split; [exact Hx |].
  exact (proj2 (proj1 (border_alphas_in_range (mkPoint 10 20))) Hx).
Defined.

Lemma GlassFilter_graph_well_formed_standard :
  known_mode
    (gf_mode (mkGlassFilterProps ":r0:" 70 2 270 69 "standard" (Some "")))
  /\ exists svg,
       GlassFilter "data:standard" "data:polar" "data:prominent"
         (mkGlassFilterProps ":r0:" 70 2 270 69 "standard" (Some ""))
       = Return svg /\
       reads_defined ["SourceGraphic"] (filter_primitives (svg_filter svg))
       = true /\
       results_used (filter_primitives (svg_filter svg)) = true /\
       last (filter_primitives (svg_filter svg)) (feOffset "" 0 0 "")
       = feComposite "EDGE_ABERRATION" "CENTER_CLEAN" op_over None.
Proof.
  assert (Hmode : known_mode
                    (gf_mode (mkGlassFilterProps ":r0:" 70 2 270 69
                                "standard" (Some ""))))
    by (left; left; reflexivity).
  split; [exact Hmode |].
  exact (GlassFilter_graph_well_formed
           "data:standard" "data:polar" "data:prominent"
           (mkGlassFilterProps ":r0:" 70 2 270 69 "standard" (Some ""))
           Hmode).
Defined.

Lemma displacement_scales_spread_shader_70_2 :
  known_mode "shader" /\ 0 <= 2
  /\ exists svg,
       GlassFilter "data:standard" "data:polar" "data:prominent"
         (mkGlassFilterProps ":r0:" 70 2 270 69 "shader" (Some "data:shader"))
       = Return svg /\
       exists red green blue,
         map (fun st => snd (fst (fst st)))
             (displacement_stages (filter_primitives (svg_filter svg)))
         = [red; green; blue] /\
         red - green = 70 * 2 * 0.05 /\
         green - blue = 70 * 2 * 0.05 /\
         (static_mode "shader" -> Rabs red <= Rabs green <= Rabs blue) /\
         ("shader" = "shader" -> 2 <= 10 ->
          Rabs blue <= Rabs green <= Rabs red).
Proof.
  assert (Hmode : known_mode "shader") by (right; reflexivity).
  assert (Ha : 0 <= 2) by lra.
  split; [exact Hmode |]. split; [exact Ha |].
  exact (displacement_scales_spread
           "data:standard" "data:polar" "data:prominent"
           ":r0:" 70 2 270 69 "shader" (Some "data:shader") Hmode Ha).
Defined.

Lemma edge_mask_table_monotone_standard_2 :
  known_mode "standard"
  /\ exists svg,
       GlassFilter "data:standard" "data:polar" "data:prominent"
         (mkGlassFilterProps ":r0:" 70 2 270 69 "standard" (Some ""))
       = Return svg /\
       exists table_values,
         transfer_table "EDGE_MASK" (filter_primitives (svg_filter svg))
         = Some (discrete, table_values) /\
         (nondecreasing table_values <-> 0 <= 2 <= 20).
Proof.
  assert (Hmode : known_mode "standard") by (left; left; reflexivity).
  split; [exact Hmode |].
  exact (edge_mask_table_monotone
           "data:standard" "data:polar" "data:prominent"
           ":r0:" 70 2 270 69 "standard" (Some "") Hmode).
Defined.

Lemma blur_deviation_range_prominent_7 :
  known_mode "prominent"
  /\ exists svg,
       GlassFilter "data:standard" "data:polar" "data:prominent"
         (mkGlassFilterProps ":r0:" 70 7 270 69 "prominent" (Some ""))
       = Return svg /\
       exists deviation,
         blur_deviations (filter_primitives (svg_filter svg)) = [deviation] /\
         0.1 <= deviation /\
         (7 <= 4 -> deviation = 0.5 - 7 * 0.1) /\
         (4 <= 7 -> deviation = 0.1) /\
         (0 <= 7 -> deviation <= 0.5).
Proof.
  assert (Hmode : known_mode "prominent")
    by (left; right; right; reflexivity).
  split; [exact Hmode |].
  exact (blur_deviation_range
           "data:standard" "data:polar" "data:prominent"
           ":r0:" 70 7 270 69 "prominent" (Some "") Hmode).
Defined.

Lemma LiquidGlass_filter_invalid_mode_glass :
  ~ known_mode
      (default "standard"
         (lg_mode (sample_props (Some "glass") None None None)))
  /\ LiquidGlass_filter "data:standard" "data:polar" "data:prominent"
       (sample_props (Some "glass") None None None) sample_hooks
       (mkGlassContainerHooks ":r0:" "")
     = Throw (mkError "Invalid mode: glass").
Proof.
  assert (Hmode : ~ known_mode
                      (default "standard"
                         (lg_mode
                            (sample_props (Some "glass") None None None))))
    by (intros [[H | [H | H]] | H]; discriminate H).
  split; [exact Hmode |].
  exact (proj1 (proj2
           (LiquidGlass_filter_returns_iff
              "data:standard" "data:polar" "data:prominent"
              (sample_props (Some "glass") None None None) sample_hooks
              (mkGlassContainerHooks ":r0:" ""))) Hmode).
Defined.

Lemma LiquidGlass_filter_end_to_end_defaults :
  ((default "standard" (lg_mode (sample_props None None None None))
    = "shader" /\ -1 = 1)
   \/ (static_mode
         (default "standard" (lg_mode (sample_props None None None None)))
       /\ -1 = -1))
  /\ exists svg,
       LiquidGlass_filter "data:standard" "data:polar" "data:prominent"
         (sample_props None None None None) sample_hooks
         (mkGlassContainerHooks ":r0:" "")
       = Return svg /\
       filter_id (svg_filter svg) = ":r0:" /\
       map (fun st => snd (fst (fst st)))
           (displacement_stages (filter_primitives (svg_filter svg)))
       = [ 70 * -1; 70 * (-1 - 2 * 0.05); 70 * (-1 - 2 * 0.1) ] /\
       filter_x (svg_filter svg) = - 0.1 * 270 /\
       filter_y (svg_filter svg) = - 0.1 * 69 /\
       filter_width (svg_filter svg) = 1.2 * 270 /\
       filter_height (svg_filter svg) = 1.2 * 69.
Proof.
  assert (Hmode :
            (default "standard" (lg_mode (sample_props None None None None))
             = "shader" /\ -1 = 1)
            \/ (static_mode
                  (default "standard"
                     (lg_mode (sample_props None None None None)))
                /\ -1 = -1))
    by (right; split; [left; reflexivity | reflexivity]).
  split; [exact Hmode |].
  exact (LiquidGlass_filter_end_to_end
           "data:standard" "data:polar" "data:prominent"
           (sample_props None None None None) sample_hooks
           (mkGlassContainerHooks ":r0:" "") (-1) Hmode).
Defined.

Lemma shader_effect_then_filter_sample :
  gc_mode (LiquidGlass_GlassContainer_props
             (sample_props (Some "shader") None None None) sample_hooks)
  = Some "shader"
  /\ exists svg,
       GlassContainer_filter "data:standard" "data:polar" "data:prominent"
         (LiquidGlass_GlassContainer_props
            (sample_props (Some "shader") None None None) sample_hooks)
         (GlassContainer_shader_effect (fun _ _ => "data:shader")
            (LiquidGlass_GlassContainer_props
               (sample_props (Some "shader") None None None) sample_hooks)
            (GlassContainer_initial_hooks ":r0:"))
       = Return svg /\
       filter_id (svg_filter svg) = ":r0:" /\
       hd_error (filter_primitives (svg_filter svg))
       = Some (feImage "DISPLACEMENT_MAP" "data:shader" "xMidYMid slice").
Proof.
  assert (Hmode : gc_mode (LiquidGlass_GlassContainer_props
                             (sample_props (Some "shader") None None None)
                             sample_hooks) = Some "shader") by reflexivity.
  split; [exact Hmode |].
  exact (proj2 (shader_effect_then_filter
                  "data:standard" "data:polar" "data:prominent"
                  (fun _ _ => "data:shader")
                  (LiquidGlass_GlassContainer_props
                     (sample_props (Some "shader") None None None)
                     sample_hooks)
                  ":r0:" Hmode)).
Defined.

Lemma static_mode_ignores_shader_state_sample :
  static_mode
    (default "standard"
       (gc_mode (LiquidGlass_GlassContainer_props
                   (sample_props (Some "polar") None None None)
                   sample_hooks)))
  /\ GlassContainer_filter "data:standard" "data:polar" "data:prominent"
       (LiquidGlass_GlassContainer_props
          (sample_props (Some "polar") None None None) sample_hooks)
       (mkGlassContainerHooks ":r0:" "data:shader")
     = GlassContainer_filter "data:standard" "data:polar" "data:prominent"
         (LiquidGlass_GlassContainer_props
            (sample_props (Some "polar") None None None) sample_hooks)
         (mkGlassContainerHooks ":r0:" "").
Proof.
  assert (Hmode : static_mode
                    (default "standard"
                       (gc_mode (LiquidGlass_GlassContainer_props
                                   (sample_props (Some "polar") None None None)
                                   sample_hooks))))
    by (right; left; reflexivity).
  split; [exact Hmode |].
  exact (proj2 (static_mode_ignores_shader_state
                  "data:standard" "data:polar" "data:prominent"
                  (fun _ _ => "data:shader")
                  (LiquidGlass_GlassContainer_props
                     (sample_props (Some "polar") None None None)
                     sample_hooks)
                  ":r0:" "data:shader" "" Hmode)).
Defined.
